(** * Recipe store: a shallow embedding of [Recipe_finder.py]

    The class [RecipeFinder] keeps a collection of recipes in a Python
    [dict] (which iterates in insertion order), answers queries over it by
    linear scans, and writes the whole collection to a JSON file after
    every insertion.

    - Python [str] is embedded as [string]; [str.lower] is the lowering of
      the letters [A]-[Z], which is what it does on ASCII text.
    - Python [int] is [Z]; Python [float] is the kernel's binary64 [float],
      with IEEE comparisons ([PrimFloat.ltb], [PrimFloat.eqb]).
    - A recipe is the record of the five keys the code reads and writes;
      ['Rating'] is absent ([None]) for an unrated recipe.
    - An exception is a value: methods run in a state and error monad over
      the object and the file system.
    - The page of [App.py] is a function of what the Streamlit widgets
      return; it leaves the store and the list of the calls it made. *)

From Stdlib Require Import ZArith String Ascii List Bool Floats DecimalString.
From stdpp Require Import base option list gmap strings.
Import ListNotations.

Local Open Scope Z_scope.
Local Open Scope string_scope.
Local Open Scope list_scope.

(** ** Python strings *)

Module Str.

Definition is_upper (c : ascii) : bool :=
  ((65 <=? nat_of_ascii c) && (nat_of_ascii c <=? 90))%nat.

(** One character of [str.lower]. *)
Definition lower_char (c : ascii) : ascii :=
  if is_upper c then ascii_of_nat (nat_of_ascii c + 32) else c.

(** [s.lower()] *)
Fixpoint lower (s : string) : string :=
  match s with
  | EmptyString => EmptyString
  | String c s' => String (lower_char c) (lower s')
  end.

(** [s.startswith(p)] *)
Fixpoint startswith (s p : string) {struct p} : bool :=
  match p, s with
  | EmptyString, _ => true
  | String _ _, EmptyString => false
  | String a p', String b s' => Ascii.eqb a b && startswith s' p'
  end.

(** [needle in hay], the substring test of [str.__contains__]. *)
Fixpoint contains (hay needle : string) : bool :=
  startswith hay needle ||
  match hay with
  | EmptyString => false
  | String _ hay' => contains hay' needle
  end.

(** Truth value of a string: the empty string is falsy. *)
Definition truthy (s : string) : bool := negb (String.eqb s "").




End Str.

(** ** Python dictionaries with string keys

    A [dict] iterates in insertion order and holds each key once; assigning
    to a key that is present replaces its value in place, and assigning to a
    new key appends it. *)

Module Dict.

Definition dict (V : Type) : Type := list (string * V).

Section Ops.
Context {V : Type}.

(** [d.get(k)] *)
Fixpoint get (d : dict V) (k : string) : option V :=
  match d with
  | [] => None
  | (k', v) :: d' => if String.eqb k k' then Some v else get d' k
  end.

(** [k in d] *)
Definition contains (d : dict V) (k : string) : bool :=
  match get d k with Some _ => true | None => false end.

(** [d[k] = v] *)
Fixpoint set (d : dict V) (k : string) (v : V) : dict V :=
  match d with
  | [] => [(k, v)]
  | (k', v') :: d' =>
      if String.eqb k k' then (k', v) :: d' else (k', v') :: set d' k v
  end.

(** [d.items()] and [d.keys()] *)
Definition items (d : dict V) : list (string * V) := d.
Definition keys (d : dict V) : list string := map fst d.

(** [dict(pairs)]: what the JSON decoder builds from the members of an
    object, a later duplicate replacing the earlier value. *)
Definition of_pairs (l : list (string * V)) : dict V :=
  fold_left (fun d kv => set d (fst kv) (snd kv)) l [].

(** The representation invariant: every key once. *)
Definition wf (d : dict V) : Prop := NoDup (keys d).
End Ops.

End Dict.

(** ** Recipes *)

(** The dictionary [add_recipe] builds and the sample data spell out. *)
Record Recipe : Type := {
  Cuisine : string;
  Ingredients : list string;
  Prep_Time : Z;
  Difficulty : string;
  Rating : option float
}.

Definition RecipeDatabase : Type := Dict.dict Recipe.

(** The data [_load_recipes] falls back to. *)
Definition sample_recipes : RecipeDatabase :=
  [ ("Spaghetti Carbonara",
     {| Cuisine := "Italian";
        Ingredients := ["Pasta"; "Eggs"; "Cheese"; "Bacon"];
        Prep_Time := 20;
        Difficulty := "Medium";
        Rating := Some 4.5%float |});
    ("Chicken Tikka Masala",
     {| Cuisine := "Indian";
        Ingredients := ["Chicken"; "Yogurt"; "Spices"; "Tomato Sauce"];
        Prep_Time := 45;
        Difficulty := "Hard";
        Rating := Some 0x1.3333333333333p+2%float (* 4.8 *) |});
    ("Avocado Toast",
     {| Cuisine := "American";
        Ingredients := ["Bread"; "Avocado"; "Salt"; "Pepper"];
        Prep_Time := 5;
        Difficulty := "Easy";
        Rating := Some 0x1.d99999999999ap+1%float (* 3.7 *) |}) ].

(** ** Exceptions and the method monad *)

Inductive exn : Type :=
| TypeError
| FileNotFoundError
| FileExistsError
| NotADirectoryError
| IsADirectoryError.

Inductive result (A : Type) : Type :=
| Ok (a : A)
| Raise (e : exn).
Arguments Ok {A} a.
Arguments Raise {A} e.

(** ** JSON documents

    [json.dump] and [json.load] belong to Python's library. They are
    embedded at the level of the document they write and read: the value
    tree of the JSON text, an object being the sequence of its members. *)

#[local] Set Warnings "-register-all".
Inductive json : Type :=
| JNull
| JBool (b : bool)
| JInt (z : Z)
| JFloat (f : float)
| JString (s : string)
| JArray (elems : list json)
| JObject (members : list (string * json)).

Module Json.

(** How [json.dump] writes a recipe: the keys in the order the dictionary
    was built with, [None] as [null]. *)
Definition of_recipe (r : Recipe) : json :=
  JObject
    [ ("Cuisine", JString (Cuisine r));
      ("Ingredients", JArray (map JString (Ingredients r)));
      ("Prep Time", JInt (Prep_Time r));
      ("Difficulty", JString (Difficulty r));
      ("Rating", match Rating r with
                 | None => JNull
                 | Some x => JFloat x
                 end) ].

(** [json.dump(self.recipes, f, indent=4)]: the document written. *)
Definition dump (db : RecipeDatabase) : json :=
  JObject (map (fun kv => (fst kv, of_recipe (snd kv))) (Dict.items db)).

Definition to_string (j : json) : option string :=
  match j with JString s => Some s | _ => None end.

Definition to_int (j : json) : option Z :=
  match j with JInt z => Some z | _ => None end.

Definition to_rating (j : json) : option (option float) :=
  match j with
  | JNull => Some None
  | JFloat x => Some (Some x)
  | _ => None
  end.

Definition to_strings (j : json) : option (list string) :=
  match j with
  | JArray elems => mapM to_string elems
  | _ => None
  end.

(** The object [json.load] builds for one member of the document, read
    as a recipe: a dictionary with exactly the five keys, each holding a
    value of the type the data model gives it. *)
Definition to_recipe (j : json) : option Recipe :=
  match j with
  | JObject members =>
      let d := Dict.of_pairs members in
      if (length d =? 5)%nat then
        c ← Dict.get d "Cuisine" ≫= to_string;
        i ← Dict.get d "Ingredients" ≫= to_strings;
        p ← Dict.get d "Prep Time" ≫= to_int;
        f ← Dict.get d "Difficulty" ≫= to_string;
        r ← Dict.get d "Rating" ≫= to_rating;
        Some {| Cuisine := c; Ingredients := i; Prep_Time := p;
                Difficulty := f; Rating := r |}
      else None
  | _ => None
  end.

(** The dictionary [json.load] builds for a whole document, read as a
    collection. *)
Definition to_database (j : json) : option RecipeDatabase :=
  match j with
  | JObject members =>
      Dict.of_pairs <$>
        mapM (fun kv => r ← to_recipe (snd kv); Some (fst kv, r)) members
  | _ => None
  end.

End Json.

(** What [json.load] returns: a collection of the data model, or some other
    document, which the code keeps as it is. *)
Inductive loaded : Type :=
| Collection (db : RecipeDatabase)
| Foreign (j : json).

Definition json_load (j : json) : loaded :=
  match Json.to_database j with
  | Some db => Collection db
  | None => Foreign j
  end.

(** ** The file system

    A path is the sequence of its components below the working directory,
    which always exists; a regular file holds text that is a JSON document
    or is not. Permissions are not modelled. *)

Definition path : Type := list string.

Inductive content : Type :=
| Document (j : json)
| Malformed.

Inductive node : Type :=
| Dir
| File (c : content).

Module Fs.

(** [Path.parent]; the parent of [Path('.')] is itself. *)
Definition parent (p : path) : path := removelast p.

Definition node_at (fs : gmap path node) (p : path) : option node :=
  match p with
  | [] => Some Dir
  | _ => fs !! p
  end.

(** Walking down from the directory [prefix] through the components
    [rest]: every one of them has to be a directory. *)
Fixpoint walk (fs : gmap path node) (prefix rest : path) : result unit :=
  match rest with
  | [] => Ok tt
  | c :: rest' =>
      match fs !! (prefix ++ [c]) with
      | Some Dir => walk fs (prefix ++ [c]) rest'
      | Some (File _) => Raise NotADirectoryError
      | None => Raise FileNotFoundError
      end
  end.

(** Reaching the directory [d] from the working directory. *)
Definition enter (fs : gmap path node) (d : path) : result unit :=
  walk fs [] d.

(** [p.mkdir(exist_ok=True)]: the parents are not created. *)
Definition mkdir_exist_ok (fs : gmap path node) (p : path)
  : result (gmap path node) :=
  match enter fs (parent p) with
  | Ok _ =>
      match node_at fs p with
      | Some Dir => Ok fs
      | Some (File _) => Raise FileExistsError
      | None => Ok (<[p := Dir]> fs)
      end
  | Raise e => Raise e
  end.

(** [open(p, 'w')] followed by writing [c] and closing the file. *)
Definition write_file (fs : gmap path node) (p : path) (c : content)
  : result (gmap path node) :=
  match enter fs (parent p) with
  | Ok _ =>
      match node_at fs p with
      | Some Dir => Raise IsADirectoryError
      | _ => Ok (<[p := File c]> fs)
      end
  | Raise e => Raise e
  end.

(** [open(p, 'r')] followed by reading the whole file. *)
Definition read_file (fs : gmap path node) (p : path) : result content :=
  match enter fs (parent p) with
  | Ok _ =>
      match node_at fs p with
      | Some (File c) => Ok c
      | Some Dir => Raise IsADirectoryError
      | None => Raise FileNotFoundError
      end
  | Raise e => Raise e
  end.

End Fs.

(** ** The store *)

(** The attributes of a [RecipeFinder] object. *)
Record RecipeFinder : Type := {
  data_file : path;
  recipes : RecipeDatabase
}.

(** What a method call can read and change: the object and the files. *)
Record world : Type := {
  self : RecipeFinder;
  disk : gmap path node
}.

(** A method body: it ends with a value or an exception, and in both cases
    leaves the world as it changed it so far. *)
Definition M (A : Type) : Type := world -> result A * world.

#[export] Instance M_ret : MRet M := fun A a w => (Ok a, w).

#[export] Instance M_bind : MBind M := fun A B f m w =>
  match m w with
  | (Ok a, w') => f a w'
  | (Raise e, w') => (Raise e, w')
  end.

Definition raise {A : Type} (e : exn) : M A := fun w => (Raise e, w).

(** [self.recipes] and [self.data_file] *)
Definition get_recipes : M RecipeDatabase := fun w => (Ok (recipes (self w)), w).
Definition get_data_file : M path := fun w => (Ok (data_file (self w)), w).

(** [self.recipes[name] = recipe] *)
Definition set_recipe (name : string) (recipe : Recipe) : M unit := fun w =>
  (Ok tt,
   {| self := {| data_file := data_file (self w);
                 recipes := Dict.set (recipes (self w)) name recipe |};
      disk := disk w |}).

(** A system call on the file system. *)
Definition syscall (f : gmap path node -> result (gmap path node)) : M unit :=
  fun w =>
    match f (disk w) with
    | Ok fs => (Ok tt, {| self := self w; disk := fs |})
    | Raise e => (Raise e, w)
    end.

(** [_load_recipes]: the collection in the data file; the sample data when
    the file is missing or is not JSON ([json.JSONDecodeError]). Any other
    error of [open] is not caught. *)
Definition _load_recipes (data_file : path) (fs : gmap path node)
  : result loaded :=
  match Fs.read_file fs data_file with
  | Ok (Document j) => Ok (json_load j)
  | Ok Malformed => Ok (Collection sample_recipes)
  | Raise FileNotFoundError => Ok (Collection sample_recipes)
  | Raise e => Raise e
  end.

(** [save_recipes] *)
Definition save_recipes : M unit :=
  data_file ← get_data_file;
  syscall (fun fs => Fs.mkdir_exist_ok fs (Fs.parent data_file));;
  recipes ← get_recipes;
  syscall (fun fs => Fs.write_file fs data_file (Document (Json.dump recipes))).

(** [get_cuisine_recommendations] *)
Definition get_cuisine_recommendations (cuisine : string) : M (list string) :=
  recipes ← get_recipes;
  mret (map fst
          (List.filter
             (fun item =>
                String.eqb (Str.lower (Cuisine (snd item))) (Str.lower cuisine))
             (Dict.items recipes))).

(** [search_recipes] *)
Definition search_recipes (query : string) : M (list string) :=
  recipes ← get_recipes;
  mret (List.filter
          (fun name => Str.contains (Str.lower name) (Str.lower query))
          (Dict.keys recipes)).

(** The three tests of the body of the loop of [filter_recipes]: the value
    of [matches] after them. All three run for every recipe; comparing the
    rating of an unrated recipe, [None < min_rating], raises [TypeError]. *)
Definition filter_matches (difficulty : option string) (max_time : option Z)
    (min_rating : option float) (recipe : Recipe) : result bool :=
  let matches := true in
  let matches :=
    match difficulty with
    | Some d =>
        if Str.truthy d
           && negb (String.eqb (Str.lower (Difficulty recipe)) (Str.lower d))
        then false else matches
    | None => matches
    end in
  let matches :=
    match max_time with
    | Some t =>
        if negb (t =? 0)%Z && (Prep_Time recipe >? t)%Z then false else matches
    | None => matches
    end in
  match min_rating with
  | Some m =>
      if negb (PrimFloat.eqb m 0%float) then
        match Rating recipe with
        | Some r => Ok (if PrimFloat.ltb r m then false else matches)
        | None => Raise TypeError
        end
      else Ok matches
  | None => Ok matches
  end.

(** The loop of [filter_recipes] over the remaining items, [filtered]
    holding the names appended so far. *)
Fixpoint filter_loop (difficulty : option string) (max_time : option Z)
    (min_rating : option float) (items : list (string * Recipe))
    (filtered : list string) : result (list string) :=
  match items with
  | [] => Ok filtered
  | (name, recipe) :: rest =>
      match filter_matches difficulty max_time min_rating recipe with
      | Ok matches =>
          filter_loop difficulty max_time min_rating rest
            (if matches then filtered ++ [name] else filtered)
      | Raise e => Raise e
      end
  end.

(** [filter_recipes] *)
Definition filter_recipes (difficulty : option string) (max_time : option Z)
    (min_rating : option float) : M (list string) :=
  recipes ← get_recipes;
  match filter_loop difficulty max_time min_rating (Dict.items recipes) [] with
  | Ok filtered => mret filtered
  | Raise e => raise e
  end.

(** [get_recipe_details] *)
Definition get_recipe_details (name : string) : M (option Recipe) :=
  recipes ← get_recipes;
  mret (Dict.get recipes name).

(** [add_recipe] *)
Definition add_recipe (name cuisine : string) (ingredients : list string)
    (prep_time : Z) (difficulty : string) (rating : option float) : M bool :=
  recipes ← get_recipes;
  if Dict.contains recipes name then mret false
  else
    set_recipe name {| Cuisine := cuisine;
                       Ingredients := ingredients;
                       Prep_Time := prep_time;
                       Difficulty := difficulty;
                       Rating := rating |};;
    save_recipes;;
    mret true.

(** ** The vocabulary of the specification *)

Module Spec.




(** A recipe satisfies the constraints that are given: difficulty equal
    up to case, [prep_time <= maxPrepTime], [rating >= minRating]. An
    unrated recipe has no rating that is at least [minRating]. *)
Definition satisfies (difficulty : option string) (maxPrepTime : option Z)
    (minRating : option float) (r : Recipe) : bool :=
  match difficulty with
  | Some d => String.eqb (Str.lower (Difficulty r)) (Str.lower d)
  | None => true
  end
  && match maxPrepTime with
     | Some t => (Prep_Time r <=? t)%Z
     | None => true
     end
  && match minRating with
     | Some m =>
         match Rating r with
         | Some x => PrimFloat.leb m x
         | None => false
         end
     | None => true
     end.

(** The names of the recipes that satisfy the constraints, in the order
    of the collection. *)
Definition names_satisfying (difficulty : option string)
    (maxPrepTime : option Z) (minRating : option float)
    (db : RecipeDatabase) : list string :=
  map fst
    (List.filter (fun item => satisfies difficulty maxPrepTime minRating (snd item))
       (Dict.items db)).

(** The constraints [filter_recipes] takes into account: an argument
    whose truth value is false (the empty string, [0], [0.0]) counts as
    absent. *)
Definition given_str (o : option string) : option string :=
  match o with
  | Some s => if Str.truthy s then Some s else None
  | None => None
  end.

Definition given_int (o : option Z) : option Z :=
  match o with
  | Some z => if (z =? 0)%Z then None else Some z
  | None => None
  end.

Definition given_float (o : option float) : option float :=
  match o with
  | Some x => if PrimFloat.eqb x 0%float then None else Some x
  | None => None
  end.

(** A recipe whose rating is a number. *)
Definition rated (r : Recipe) : bool :=
  match Rating r with
  | Some x => negb (PrimFloat.is_nan x)
  | None => false
  end.

(** The rating test of [filter_recipes] compares numbers only: either
    no minimum is given, or the minimum and every rating is a number. *)
Definition ratings_comparable (minRating : option float)
    (db : RecipeDatabase) : bool :=
  match given_float minRating with
  | Some m => negb (PrimFloat.is_nan m) && forallb (fun item => rated (snd item)) db
  | None => true
  end.

(** [name] is a key of the collection of [w], and its details are there. *)
Definition known (w : world) (name : string) : Prop :=
  In name (Dict.keys (recipes (self w))) /\
  exists r, get_recipe_details name w = (Ok (Some r), w).

(** Every name of a result is known; nothing is said of an exception. *)
Definition all_known (w : world) (res : result (list string)) : Prop :=
  match res with
  | Ok names => Forall (known w) names
  | Raise _ => True
  end.

End Spec.

(** ** Worlds to run the store in *)

(** The store on the sample data with the default data file, before
    anything was saved. *)
Definition sample_world : world :=
  {| self := {| data_file := ["data"; "recipes.json"];
                recipes := sample_recipes |};
     disk := ∅ |}.

(** The store created with a data file two directories down, in a working
    directory that holds neither: [_load_recipes] finds no file and falls
    back to the sample data. *)
Definition nested_world : world :=
  {| self := {| data_file := ["backup"; "data"; "recipes.json"];
                recipes := sample_recipes |};
     disk := ∅ |}.

(** ** Further vocabulary *)

(** The names of a result come in the order of the keys of the collection
    of [w], none of them twice where no key is twice; nothing is said of
    an exception. *)
Definition in_key_order (w : world) (res : result (list string)) : Prop :=
  match res with
  | Ok names => sublist names (Dict.keys (recipes (self w)))
  | Raise _ => True
  end.

(** No name comes twice in a result. *)
Definition distinct_names (res : result (list string)) : Prop :=
  match res with
  | Ok names => NoDup names
  | Raise _ => True
  end.


(** ** The page: [App.py]

    The script runs from top to bottom each time the user acts. Streamlit
    is a library: a run is embedded as a function of what the widgets
    return, and what it leaves is the session's store and the calls it
    made to Streamlit, in order. The first lines of the script create the
    [RecipeFinder] once per session; a run starts from the world holding
    it. *)

Module Text.

(** [str.isspace] of a character, on ASCII text. *)
Definition is_space (c : ascii) : bool :=
  let n := nat_of_ascii c in
  ((9 <=? n) && (n <=? 13) || (28 <=? n) && (n <=? 32))%nat.

(** [s.lstrip()], [s.rstrip()], [s.strip()] *)
Fixpoint lstrip (s : string) : string :=
  match s with
  | String c s' => if is_space c then lstrip s' else s
  | EmptyString => EmptyString
  end.

Fixpoint rstrip (s : string) : string :=
  match s with
  | EmptyString => EmptyString
  | String c s' =>
      match rstrip s' with
      | EmptyString => if is_space c then EmptyString else String c EmptyString
      | r => String c r
      end
  end.

Definition strip (s : string) : string := rstrip (lstrip s).

(** [s.split(sep)] for a separator of one character. *)
Fixpoint split (sep : ascii) (s : string) : list string :=
  match s with
  | EmptyString => [EmptyString]
  | String c s' =>
      if Ascii.eqb c sep then EmptyString :: split sep s'
      else match split sep s' with
           | h :: t => String c h :: t
           | [] => [String c EmptyString]
           end
  end.

(** The newline character. *)
Definition newline : ascii := ascii_of_nat 10.

(** [str(n)] of an integer. *)
Definition of_int (n : Z) : string := NilZero.string_of_int (Z.to_int n).

End Text.

(** A call to Streamlit. *)
Inductive element : Type :=
| st_title (body : string)
| st_header (body : string)
| st_subheader (body : string)
| st_write (body : string)
| st_success (body : string)
| st_warning (body : string)
| st_error (body : string)
| st_columns (n : Z)
| st_form (key : string)
| st_sidebar_selectbox (label : string) (options : list string)
| st_selectbox (label : string) (options : list string)
| st_text_input (label : string)
| st_text_area (label help : string)
| st_number_input (label : string) (min_value : Z)
| st_slider_int (label : string) (min_value max_value value : Z)
| st_slider_float (label : string) (min_value max_value value step : float)
| st_button (label : string) (key : option string)
| st_form_submit_button (label : string).

(** What the widgets of a run return, by label (and key). *)
Record widgets : Type := {
  selectbox : string -> string;
  text_input : string -> string;
  text_area : string -> string;
  number_input : string -> Z;
  slider_int : string -> Z;
  slider_float : string -> float;
  button : string -> option string -> bool;
  form_submit_button : string -> bool
}.

(** The state of a run: the world of the session's store and the calls
    made so far. *)
Record page : Type := {
  session : world;
  shown : list element
}.

(** A piece of the script. An exception ends the run; what was shown
    stays. *)
Definition UI (A : Type) : Type := widgets -> page -> result A * page.

#[export] Instance UI_ret : MRet UI := fun A a _ pg => (Ok a, pg).

#[export] Instance UI_bind : MBind UI := fun A B f m wd pg =>
  match m wd pg with
  | (Ok a, pg') => f a wd pg'
  | (Raise e, pg') => (Raise e, pg')
  end.

(** A call that shows something and returns nothing. *)
Definition show (e : element) : UI unit := fun _ pg =>
  (Ok tt, {| session := session pg; shown := shown pg ++ [e] |}).

(** A call that shows a widget and returns its value. *)
Definition ask {A : Type} (e : element) (value : widgets -> A) : UI A :=
  fun wd pg =>
    (Ok (value wd), {| session := session pg; shown := shown pg ++ [e] |}).

(** A method call on [st.session_state.finder]. *)
Definition call {A : Type} (m : M A) : UI A := fun _ pg =>
  (fst (m (session pg)),
   {| session := snd (m (session pg)); shown := shown pg |}).

(** A [for] loop over a list. *)
Fixpoint for_each {A : Type} (l : list A) (body : A -> UI unit) : UI unit :=
  match l with
  | [] => mret tt
  | a :: l' => body a;; for_each l' body
  end.

(** [list(st.session_state.finder.recipes.keys())] *)
Definition get_keys : M (list string) := fun w =>
  (Ok (Dict.keys (recipes (self w))), w).

Module App.

Section Script.
(** The text Python prints for a float in an f-string, [repr]. *)
Variable float_repr : float -> string.

(** Truth value of a float: zero is falsy. *)
Definition float_truthy (x : float) : bool := negb (PrimFloat.eqb x 0%float).

(** [display_recipe_details] *)
Definition display_recipe_details (name : string) : UI unit :=
  recipe ← call (get_recipe_details name);
  match recipe with
  | Some recipe =>
      show (st_subheader name);;
      show (st_write ("**Cuisine:** " +:+ Cuisine recipe));;
      show (st_write "**Ingredients:**");;
      for_each (Ingredients recipe)
        (fun ingredient => show (st_write ("- " +:+ ingredient)));;
      show (st_write ("**Prep Time:** " +:+ Text.of_int (Prep_Time recipe)
                      +:+ " minutes"));;
      show (st_write ("**Difficulty:** " +:+ Difficulty recipe));;
      show (st_write
              match Rating recipe with
              | Some x =>
                  if float_truthy x then "**Rating:** " +:+ float_repr x
                  else "**Rating:** Not rated"
              | None => "**Rating:** Not rated"
              end)
  | None => show (st_error "Recipe not found.")
  end.

(** [display_recipe_list] *)
Definition display_recipe_list (recipes : list string) : UI unit :=
  match recipes with
  | [] => show (st_warning "No recipes found matching your criteria.")
  | _ =>
      for_each recipes
        (fun recipe =>
           clicked ← ask (st_button recipe (Some ("btn_" +:+ recipe)))
                       (fun wd => button wd recipe (Some ("btn_" +:+ recipe)));
           if clicked : bool then display_recipe_details recipe else mret tt)
  end.

Definition menu : list string :=
  ["Get Recommendations"; "Search Recipes"; "Filter Recipes";
   "Add New Recipe"; "View All Recipes"].

(** The branch of [main] for "Get Recommendations". *)
Definition page_recommendations : UI unit :=
  show (st_header "Get Recipe Recommendations");;
  cuisine ← ask (st_text_input "Enter your preferred cuisine:")
              (fun wd => text_input wd "Enter your preferred cuisine:");
  if Str.truthy cuisine then
    recommendations ← call (get_cuisine_recommendations cuisine);
    match recommendations with
    | _ :: _ =>
        show (st_success ("Based on your love for " +:+ cuisine
                          +:+ ", try these recipes:"));;
        display_recipe_list recommendations
    | [] =>
        show (st_warning ("No " +:+ cuisine
                          +:+ " recipes found. Try another cuisine!"))
    end
  else mret tt.

(** The branch of [main] for "Search Recipes". *)
Definition page_search : UI unit :=
  show (st_header "Search Recipes");;
  query ← ask (st_text_input "Enter recipe name (full or partial):")
            (fun wd => text_input wd "Enter recipe name (full or partial):");
  if Str.truthy query then
    results ← call (search_recipes query);
    display_recipe_list results
  else mret tt.

(** The branch of [main] for "Filter Recipes". *)
Definition page_filter : UI unit :=
  show (st_header "Filter Recipes");;
  show (st_columns 3);;
  difficulty ← ask (st_selectbox "Difficulty" ["Any"; "Easy"; "Medium"; "Hard"])
                 (fun wd => selectbox wd "Difficulty");
  let difficulty :=
    if String.eqb difficulty "Any" then None else Some difficulty in
  max_time ← ask (st_slider_int "Maximum Prep Time (minutes)" 0 120 60)
               (fun wd => slider_int wd "Maximum Prep Time (minutes)");
  let max_time := if (max_time =? 120)%Z then None else Some max_time in
  min_rating ← ask (st_slider_float "Minimum Rating" 0 5 0 0x1.999999999999ap-4 (* 0.1 *))
                 (fun wd => slider_float wd "Minimum Rating");
  let min_rating :=
    if PrimFloat.eqb min_rating 0%float then None else Some min_rating in
  apply ← ask (st_button "Apply Filters" None)
            (fun wd => button wd "Apply Filters" None);
  if apply : bool then
    filtered ← call (filter_recipes difficulty max_time min_rating);
    display_recipe_list filtered
  else mret tt.

(** [[i.strip() for i in ingredients.split('\n') if i.strip()]] *)
Definition ingredient_list (ingredients : string) : list string :=
  map Text.strip
    (List.filter (fun i => Str.truthy (Text.strip i))
       (Text.split Text.newline ingredients)).

(** The branch of [main] for "Add New Recipe". *)
Definition page_add : UI unit :=
  show (st_header "Add a New Recipe");;
  show (st_form "add_recipe_form");;
  name ← ask (st_text_input "Recipe Name*")
           (fun wd => text_input wd "Recipe Name*");
  cuisine ← ask (st_text_input "Cuisine*") (fun wd => text_input wd "Cuisine*");
  ingredients ← ask (st_text_area "Ingredients (one per line)*"
                       "Enter each ingredient on a new line")
                  (fun wd => text_area wd "Ingredients (one per line)*");
  prep_time ← ask (st_number_input "Prep Time (minutes)*" 1)
                (fun wd => number_input wd "Prep Time (minutes)*");
  difficulty ← ask (st_selectbox "Difficulty*" ["Easy"; "Medium"; "Hard"])
                 (fun wd => selectbox wd "Difficulty*");
  rating ← ask (st_slider_float "Rating (optional)" 0 5 0
                  0x1.999999999999ap-4 (* 0.1 *))
             (fun wd => slider_float wd "Rating (optional)");
  let rating := if PrimFloat.eqb rating 0%float then None else Some rating in
  submitted ← ask (st_form_submit_button "Add Recipe")
                (fun wd => form_submit_button wd "Add Recipe");
  if submitted : bool then
    if negb (Str.truthy name && Str.truthy cuisine && Str.truthy ingredients
             && negb (prep_time =? 0)%Z && Str.truthy difficulty)
    then show (st_error "Please fill all required fields (*)")
    else
      success ← call (add_recipe name cuisine (ingredient_list ingredients)
                        prep_time difficulty rating);
      if success : bool
      then show (st_success ("'" +:+ name +:+ "' added successfully!"))
      else show (st_error ("A recipe with name '" +:+ name
                           +:+ "' already exists."))
  else mret tt.

(** The branch of [main] for "View All Recipes". *)
Definition page_all : UI unit :=
  show (st_header "All Recipes");;
  all_recipes ← call get_keys;
  display_recipe_list all_recipes.

(** [main] *)
Definition main : UI unit :=
  show (st_title "🍳 Recipe Finder System");;
  show (st_write "Discover and manage your favorite recipes!");;
  choice ← ask (st_sidebar_selectbox "Menu" menu) (fun wd => selectbox wd "Menu");
  if String.eqb choice "Get Recommendations" then page_recommendations
  else if String.eqb choice "Search Recipes" then page_search
  else if String.eqb choice "Filter Recipes" then page_filter
  else if String.eqb choice "Add New Recipe" then page_add
  else if String.eqb choice "View All Recipes" then page_all
  else mret tt.

End Script.

End App.

(** ** Vocabulary for the page *)

Definition is_button (e : element) : bool :=
  match e with st_button _ _ => true | _ => false end.

(** The buttons among the calls, in order. *)
Definition buttons (l : list element) : list element := List.filter is_button l.

(** The button [display_recipe_list] shows for a name. *)
Definition button_of (name : string) : element :=
  st_button name (Some ("btn_" +:+ name)).

(** The piece [m] of the script returns, leaves the store and the files
    as they were, and shows [more]. *)
Definition only_shows (m : UI unit) (wd : widgets) (pg : page)
    (more : list element) : Prop :=
  m wd pg = (Ok tt, {| session := session pg; shown := shown pg ++ more |}).

(** The lines of the details of a recipe, [float_repr] printing floats. *)
Definition details_of (float_repr : float -> string) (name : string)
    (recipe : Recipe) : list element :=
  [st_subheader name; st_write ("**Cuisine:** " +:+ Cuisine recipe);
   st_write "**Ingredients:**"]
  ++ map (fun ingredient => st_write ("- " +:+ ingredient)) (Ingredients recipe)
  ++ [st_write ("**Prep Time:** " +:+ Text.of_int (Prep_Time recipe)
                +:+ " minutes");
      st_write ("**Difficulty:** " +:+ Difficulty recipe);
      st_write
        match Rating recipe with
        | Some x =>
            if App.float_truthy x then "**Rating:** " +:+ float_repr x
            else "**Rating:** Not rated"
        | None => "**Rating:** Not rated"
        end].

(** The start of [main]: the title, the line below it and the menu. *)
Definition main_head : list element :=
  [st_title "🍳 Recipe Finder System";
   st_write "Discover and manage your favorite recipes!";
   st_sidebar_selectbox "Menu" App.menu].

(** The piece [m] of the script, run with the widgets [wd], leaves the
    store and the files as they were, however it ends. *)
Definition keeps_session {A : Type} (m : UI A) (wd : widgets) : Prop :=
  forall pg, session (snd (m wd pg)) = session pg.

(** A string of spaces only. *)
Fixpoint blank (s : string) : bool :=
  match s with
  | EmptyString => true
  | String c s' => Text.is_space c && blank s'
  end.

(** A recipe as the form of the page can store it: the required fields
    filled, the ingredients stripped and not empty, no rating of zero. *)
Definition from_form (name : string) (r : Recipe) : Prop :=
  name <> "" /\ Cuisine r <> "" /\ Difficulty r <> "" /\ Prep_Time r <> 0 /\
  Forall (fun i => i <> "" /\ Text.strip i = i) (Ingredients r) /\
  (forall x, Rating r = Some x -> PrimFloat.eqb x 0%float = false).

(** The widgets with the slider of the maximum time moved to [v]. *)
Definition with_max_time (wd : widgets) (v : Z) : widgets :=
  {| selectbox := selectbox wd;
     text_input := text_input wd;
     text_area := text_area wd;
     number_input := number_input wd;
     slider_int := fun label =>
       if String.eqb label "Maximum Prep Time (minutes)" then v
       else slider_int wd label;
     slider_float := slider_float wd;
     button := button wd;
     form_submit_button := form_submit_button wd |}.

(** Widgets that return the same everywhere: the first menu entry chosen,
    no text, nothing clicked. *)
Definition idle : widgets :=
  {| selectbox := fun _ => "Get Recommendations";
     text_input := fun _ => "";
     text_area := fun _ => "";
     number_input := fun _ => 1;
     slider_int := fun _ => 60;
     slider_float := fun _ => 0%float;
     button := fun _ _ => false;
     form_submit_button := fun _ => false |}.

(** The widgets of a run of the page "View All Recipes", the button of
    Avocado Toast clicked. *)
Definition view_all_widgets : widgets :=
  {| selectbox := fun _ => "View All Recipes";
     text_input := fun _ => "";
     text_area := fun _ => "";
     number_input := fun _ => 1;
     slider_int := fun _ => 60;
     slider_float := fun _ => 0%float;
     button := fun label _ => String.eqb label "Avocado Toast";
     form_submit_button := fun _ => false |}.

(** The widgets of a run of the form: Toast, British, easy, three
    minutes, two ingredients, the rating slider left at zero, the form
    submitted. *)
Definition form_widgets : widgets :=
  {| selectbox := fun label =>
       if String.eqb label "Menu" then "Add New Recipe" else "Easy";
     text_input := fun label =>
       if String.eqb label "Cuisine*" then "British" else "Toast";
     text_area := fun _ => " Bread" +:+ String Text.newline " Butter ";
     number_input := fun _ => 3;
     slider_int := fun _ => 60;
     slider_float := fun _ => 0%float;
     button := fun _ _ => false;
     form_submit_button := fun _ => true |}.

(** The widgets of a run of the page "Filter Recipes": any difficulty, a
    minimum rating of 4, "Apply Filters" clicked. *)
Definition filter_widgets : widgets :=
  {| selectbox := fun label =>
       if String.eqb label "Menu" then "Filter Recipes" else "Any";
     text_input := fun _ => "";
     text_area := fun _ => "";
     number_input := fun _ => 1;
     slider_int := fun _ => 60;
     slider_float := fun _ => 4%float;
     button := fun label _ => String.eqb label "Apply Filters";
     form_submit_button := fun _ => false |}.

(** A printer of floats to run the page with. *)
Definition repr_sample (x : float) : string :=
  if PrimFloat.eqb x 4.5%float then "4.5" else "?".

(** The page at the start of a run on the sample data. *)
Definition sample_page : page := {| session := sample_world; shown := [] |}.

(** * Properties *)

(** ** Strings *)

Section StrFacts.







End StrFacts.

(** ** Dictionaries *)

Section DictFacts.
Context {V : Type}.
Implicit Types (d : Dict.dict V) (k : string) (v : V).

Lemma get_Some_In d k v : Dict.get d k = Some v -> In (k, v) d.
Proof.
  induction d as [|[k' v'] d IH]; simpl; [discriminate|].
  destruct (String.eqb_spec k k') as [->|_].
  - intros [= ->]. now left.
  - intros H. right. now apply IH.
Qed.

Lemma contains_true_iff d k :
  Dict.contains d k = true <-> In k (Dict.keys d).
Proof.
  unfold Dict.contains. induction d as [|[k' v'] d IH]; simpl.
  - split; [discriminate | contradiction].
  - destruct (String.eqb_spec k k') as [->|Hne].
    + split; [now left | reflexivity].
    + rewrite IH. split; [now right | intros [Heq | Hin]; congruence].
Qed.

Lemma contains_false_iff d k :
  Dict.contains d k = false <-> ~ In k (Dict.keys d).
Proof.
  rewrite <- contains_true_iff. now destruct (Dict.contains d k).
Qed.

(** Every key is found by [get]. *)
Lemma In_keys_get d k : In k (Dict.keys d) -> exists v, Dict.get d k = Some v.
Proof.
  rewrite <- contains_true_iff. unfold Dict.contains.
  destruct (Dict.get d k) as [v|]; [eauto | discriminate].
Qed.

(** Assigning to a new key appends it. *)
Lemma set_fresh d k v :
  Dict.contains d k = false -> Dict.set d k v = d ++ [(k, v)].
Proof.
  unfold Dict.contains. induction d as [|[k' v'] d IH]; simpl; [reflexivity|].
  destruct (String.eqb k k'); [discriminate|].
  intros H. now rewrite IH.
Qed.

Lemma get_set_eq d k v : Dict.get (Dict.set d k v) k = Some v.
Proof.
  induction d as [|[k' v'] d IH]; simpl.
  - now rewrite String.eqb_refl.
  - destruct (String.eqb k k') eqn:E; simpl; now rewrite E.
Qed.

Lemma contains_set_eq d k v : Dict.contains (Dict.set d k v) k = true.
Proof. unfold Dict.contains. now rewrite get_set_eq. Qed.

Lemma keys_app d d' : Dict.keys (d ++ d') = Dict.keys d ++ Dict.keys d'.
Proof. apply map_app. Qed.

(** Building a dictionary from pairs with distinct keys keeps the pairs. *)
Lemma fold_set_fresh (l : list (string * V)) d :
  NoDup (Dict.keys d ++ Dict.keys l) ->
  fold_left (fun d kv => Dict.set d (fst kv) (snd kv)) l d = d ++ l.
Proof.
  revert d. induction l as [|[k v] l IH]; intros d Hnd; simpl.
  - now rewrite app_nil_r.
  - assert (Hk : Dict.contains d k = false).
    { apply contains_false_iff. intros Hin.
      apply NoDup_app in Hnd as (_ & Hd & _).
      apply (Hd k); [now apply list_elem_of_In | simpl; left]. }
    rewrite (set_fresh d k v Hk), IH.
    + now rewrite <- app_assoc.
    + rewrite keys_app. simpl. now rewrite <- app_assoc.
Qed.

Lemma of_pairs_wf (l : list (string * V)) : Dict.wf l -> Dict.of_pairs l = l.
Proof. intros Hwf. unfold Dict.of_pairs. now rewrite fold_set_fresh. Qed.

End DictFacts.

(** ** Floats *)

Section FloatFacts.

Lemma SFcompare_antisym (x y : spec_float) :
  SFcompare y x = option_map CompOpp (SFcompare x y).
Proof.
  destruct x as [[]|[]| |[] mx ex], y as [[]|[]| |[] my ey];
    simpl; try reflexivity;
    rewrite (Z.compare_antisym ex ey);
    pose proof (Pos.compare_cont_antisym mx my Eq) as Hm; simpl in Hm;
    rewrite <- Hm; destruct (ex ?= ey)%Z; simpl; try reflexivity;
    now rewrite CompOpp_involutive.
Qed.

Lemma is_nan_false (f : float) :
  PrimFloat.is_nan f = false -> Prim2SF f <> S754_nan.
Proof.
  unfold PrimFloat.is_nan. rewrite FloatAxioms.eqb_spec. intros H E.
  rewrite E in H. discriminate.
Qed.

Lemma SFcompare_defined (x y : spec_float) :
  x <> S754_nan -> y <> S754_nan -> exists c, SFcompare x y = Some c.
Proof.
  intros Hx Hy.
  destruct x as [?|?| |? ? ?], y as [?|?| |? ? ?];
    try contradiction; simpl; eauto.
Qed.

(** On numbers, [not (r < m)] is [r >= m]. *)
Lemma not_ltb_is_geb (r m : float) :
  PrimFloat.is_nan r = false -> PrimFloat.is_nan m = false ->
  negb (PrimFloat.ltb r m) = PrimFloat.leb m r.
Proof.
  intros Hr Hm. rewrite ltb_spec, leb_spec. unfold SFltb, SFleb.
  rewrite (SFcompare_antisym (Prim2SF r) (Prim2SF m)).
  destruct (SFcompare_defined (Prim2SF r) (Prim2SF m)) as [c ->];
    [now apply is_nan_false .. |].
  now destruct c.
Qed.

End FloatFacts.

(** ** Equality up to case is equality of the lowered strings *)

Section CaseFacts.





End CaseFacts.

(** ** Running a method *)

(** Unfolds the monad of a method body down to the pair it computes. *)
Ltac run :=
  unfold get_cuisine_recommendations, search_recipes, filter_recipes,
    get_recipe_details, mbind, M_bind, mret, M_ret, raise, get_recipes;
  cbn beta iota.

(** ** The queries *)




(** C9. On the sample data, which is what [_load_recipes] yields when
    there is no data file, filtering for difficulty "Easy" and at most 30
    minutes gives Avocado Toast, searching for "Chicken" gives Chicken
    Tikka Masala, and no recipe is recommended for "French". *)
Theorem sample_scenario :
  _load_recipes ["data"; "recipes.json"] ∅ = Ok (Collection sample_recipes) /\
  fst (filter_recipes (Some "Easy") (Some 30) None sample_world)
  = Ok ["Avocado Toast"] /\
  fst (search_recipes "Chicken" sample_world) = Ok ["Chicken Tikka Masala"] /\
  fst (get_cuisine_recommendations "French" sample_world) = Ok [].
Proof. repeat split; vm_compute; reflexivity. Qed.

(** ** The filter *)

Section FilterFacts.
Variables (difficulty : option string) (max_time : option Z)
          (min_rating : option float).

(** The value the loop body computes for a recipe whose rating the
    rating test can compare. *)
Lemma filter_matches_given (r : Recipe) :
  match Spec.given_float min_rating with
  | Some m => PrimFloat.is_nan m = false /\ Spec.rated r = true
  | None => True
  end ->
  filter_matches difficulty max_time min_rating r
  = Ok (Spec.satisfies (Spec.given_str difficulty) (Spec.given_int max_time)
          (Spec.given_float min_rating) r).
Proof.
  unfold filter_matches, Spec.satisfies, Spec.given_str, Spec.given_int,
    Spec.given_float, Spec.rated.
  assert (Hgt : forall t, (Prep_Time r >? t)%Z = negb (Prep_Time r <=? t)%Z).
  { intros t. now rewrite Z.gtb_ltb, Z.leb_antisym, negb_involutive. }
  intros Hcmp.
  destruct difficulty as [d|]; [destruct (Str.truthy d)|];
    (destruct max_time as [t|]; [rewrite (Hgt t); destruct (t =? 0)%Z|]);
    (destruct min_rating as [m|]; [destruct (PrimFloat.eqb m 0)|]);
    cbn [negb andb] in *;
    lazymatch type of Hcmp with
    | _ /\ _ =>
        destruct Hcmp as [Hm Hr]; destruct (Rating r) as [x|];
        [|discriminate];
        apply negb_true_iff in Hr;
        rewrite <- (not_ltb_is_geb x m Hr Hm)
    | _ => idtac
    end;
    repeat match goal with
           | |- context [String.eqb ?a ?b] => destruct (String.eqb a b)
           | |- context [Z.leb ?a ?b] => destruct (Z.leb a b)
           | |- context [PrimFloat.ltb ?a ?b] => destruct (PrimFloat.ltb a b)
           end;
    reflexivity.
Qed.

(** The loop appends to [filtered] the names of the remaining items
    that satisfy the given constraints. *)
Lemma filter_loop_given (items : list (string * Recipe)) (filtered : list string) :
  Spec.ratings_comparable min_rating items = true ->
  filter_loop difficulty max_time min_rating items filtered
  = Ok (filtered ++
        Spec.names_satisfying (Spec.given_str difficulty)
          (Spec.given_int max_time) (Spec.given_float min_rating) items).
Proof.
  unfold Spec.ratings_comparable, Spec.names_satisfying, Dict.items.
  revert filtered. induction items as [|[name r] items IH];
    intros filtered Hcmp; simpl.
  - now rewrite app_nil_r.
  - assert (Hhere : match Spec.given_float min_rating with
                    | Some m => PrimFloat.is_nan m = false /\ Spec.rated r = true
                    | None => True
                    end).
    { destruct (Spec.given_float min_rating); [|exact I].
      simpl in Hcmp. rewrite !andb_true_iff, negb_true_iff in Hcmp. tauto. }
    assert (Hrest : match Spec.given_float min_rating with
                    | Some m =>
                        negb (PrimFloat.is_nan m)
                        && forallb (fun item => Spec.rated (snd item)) items
                    | None => true
                    end = true).
    { destruct (Spec.given_float min_rating); [|reflexivity].
      simpl in Hcmp. rewrite !andb_true_iff in *. tauto. }
    rewrite (filter_matches_given r Hhere).
    destruct (Spec.satisfies _ _ _ r); simpl.
    + now rewrite (IH _ Hrest), <- app_assoc.
    + apply (IH _ Hrest).
Qed.

(** A constraint of [0] on the time is no constraint for the loop. *)
Lemma filter_loop_zero_time (items : list (string * Recipe)) (filtered : list string) :
  filter_loop difficulty (Some 0) min_rating items filtered
  = filter_loop difficulty None min_rating items filtered.
Proof.
  revert filtered. induction items as [|[name r] items IH]; intros filtered.
  - reflexivity.
  - cbn [filter_loop].
    replace (filter_matches difficulty (Some 0) min_rating r)
      with (filter_matches difficulty None min_rating r) by reflexivity.
    destruct (filter_matches difficulty None min_rating r) as [matches|e];
      [apply IH | reflexivity].
Qed.

(** A constraint of [0.0] on the rating is no constraint for the loop. *)
Lemma filter_loop_zero_rating (items : list (string * Recipe)) (filtered : list string) :
  filter_loop difficulty max_time (Some 0%float) items filtered
  = filter_loop difficulty max_time None items filtered.
Proof.
  revert filtered. induction items as [|[name r] items IH]; intros filtered.
  - reflexivity.
  - cbn [filter_loop].
    replace (filter_matches difficulty max_time (Some 0%float) r)
      with (filter_matches difficulty max_time None r) by reflexivity.
    destruct (filter_matches difficulty max_time None r) as [matches|e];
      [apply IH | reflexivity].
Qed.

(** The loop keeps what was filtered and adds names of the items only. *)
Lemma filter_loop_names (items : list (string * Recipe)) (filtered names : list string) :
  filter_loop difficulty max_time min_rating items filtered = Ok names ->
  forall name, In name names -> In name filtered \/ In name (map fst items).
Proof.
  revert filtered. induction items as [|[n r] items IH];
    intros filtered Hloop name Hin; simpl in *.
  - injection Hloop as <-. now left.
  - destruct (filter_matches difficulty max_time min_rating r) as [[]|e];
      [| |discriminate];
      destruct (IH _ Hloop name Hin) as [Hf|Hi]; auto.
    apply in_app_or in Hf as [Hf|[<-|[]]]; auto.
Qed.

End FilterFacts.

Section FilterRaises.
Variables (difficulty : option string) (max_time : option Z)
          (min_rating : option float).

(** With a minimum rating given, one unrated recipe makes the loop
    raise, whatever the other recipes are. *)
Lemma filter_loop_unrated (items : list (string * Recipe))
    (filtered : list string) (m : float) :
  Spec.given_float min_rating = Some m ->
  Exists (fun item => Rating (snd item) = None) items ->
  filter_loop difficulty max_time min_rating items filtered = Raise TypeError.
Proof.
  intros Hm Hex. revert filtered.
  induction Hex as [[name r] items Hr | [name r] items _ IH];
    intros filtered; cbn [filter_loop].
  - unfold filter_matches. simpl in Hr. rewrite Hr.
    unfold Spec.given_float in Hm. destruct min_rating as [x|]; [|discriminate].
    destruct (PrimFloat.eqb x 0); [discriminate | reflexivity].
  - destruct (filter_matches difficulty max_time min_rating r) as [matches|e] eqn:E.
    + apply IH.
    + unfold filter_matches in E.
      destruct min_rating as [x|]; [|discriminate].
      destruct (negb (PrimFloat.eqb x 0)); [|discriminate].
      destruct (Rating r); [discriminate | congruence].
Qed.

End FilterRaises.

(** C1. [filter_recipes] is not total on collections with an unrated
    recipe, which [add_recipe] stores when called with [rating = None]:
    given a minimum rating other than zero, comparing the missing rating
    raises [TypeError], whatever the other arguments and recipes are. The
    world is left as it was. *)
Theorem filter_recipes_raises_on_unrated (w : world)
    (difficulty : option string) (max_time : option Z)
    (min_rating : option float) (m : float) :
  Spec.given_float min_rating = Some m ->
  Exists (fun item => Rating (snd item) = None) (Dict.items (recipes (self w))) ->
  filter_recipes difficulty max_time min_rating w = (Raise TypeError, w).
Proof.
  intros Hm Hex. run.
  now rewrite (filter_loop_unrated difficulty max_time min_rating _ [] m Hm Hex).
Qed.

Lemma filter_recipes_raises_on_unrated_witness :
  fst (add_recipe "Toast" "British" ["Bread"] 3 "Easy" None sample_world)
  = Ok true /\
  fst (filter_recipes None None (Some 4%float)
         (snd (add_recipe "Toast" "British" ["Bread"] 3 "Easy" None
                 sample_world)))
  = Raise TypeError.
Proof.
  split; [vm_compute; reflexivity|].
  rewrite (filter_recipes_raises_on_unrated
             (snd (add_recipe "Toast" "British" ["Bread"] 3 "Easy" None
                     sample_world))
             None None (Some 4%float) 4%float eq_refl).
  - reflexivity.
  - vm_compute. do 3 apply Exists_cons_tl. now apply Exists_cons_hd.
Defined.

(** C3, as stated, fails: with [maxPrepTime = 0] no sample recipe has a
    preparation time of at most 0, and [filter_recipes] returns all three. *)
Lemma filter_recipes_zero_time_counterexample :
  fst (filter_recipes None (Some 0) None sample_world)
  = Ok ["Spaghetti Carbonara"; "Chicken Tikka Masala"; "Avocado Toast"] /\
  Spec.names_satisfying None (Some 0) None (recipes (self sample_world)) = [].
Proof. split; vm_compute; reflexivity. Qed.

(** C3, amended. When the rating test compares numbers only (no minimum
    rating is given, or every recipe is rated), [filter_recipes] returns,
    in iteration order, exactly the names of the recipes that satisfy the
    constraints given with a true value: difficulty equal up to case,
    [prep_time <= maxPrepTime], [rating >= minRating]; an argument that is
    absent, empty or zero constrains nothing. *)
Theorem filter_recipes_given_constraints (w : world)
    (difficulty : option string) (max_time : option Z)
    (min_rating : option float) :
  Spec.ratings_comparable min_rating (recipes (self w)) = true ->
  filter_recipes difficulty max_time min_rating w
  = (Ok (Spec.names_satisfying (Spec.given_str difficulty)
           (Spec.given_int max_time) (Spec.given_float min_rating)
           (recipes (self w))), w).
Proof.
  intros Hcmp. run. unfold Dict.items.
  now rewrite (filter_loop_given difficulty max_time min_rating _ [] Hcmp).
Qed.

Lemma filter_recipes_given_constraints_witness :
  Spec.ratings_comparable (Some 3.5%float) (recipes (self sample_world)) = true /\
  filter_recipes (Some "EASY") (Some 30) (Some 3.5%float) sample_world
  = (Ok ["Avocado Toast"], sample_world).
Proof.
  split; [reflexivity|].
  rewrite (filter_recipes_given_constraints sample_world (Some "EASY")
             (Some 30) (Some 3.5%float) eq_refl).
  reflexivity.
Defined.

(** C4. A maximum time of [0] gives the result of no maximum time, and a
    minimum rating of [0.0] the result of no minimum rating. *)
Theorem filter_recipes_falsy_is_absent (w : world)
    (difficulty : option string) (max_time : option Z)
    (min_rating : option float) :
  filter_recipes difficulty (Some 0) min_rating w
  = filter_recipes difficulty None min_rating w /\
  filter_recipes difficulty max_time (Some 0%float) w
  = filter_recipes difficulty max_time None w.
Proof.
  split; run.
  - now rewrite filter_loop_zero_time.
  - now rewrite filter_loop_zero_rating.
Qed.

(** ** The queries do not write *)

Section Known.
Variable w : world.

Lemma known_of_key (name : string) :
  In name (Dict.keys (recipes (self w))) -> Spec.known w name.
Proof.
  intros Hin. split; [exact Hin|].
  destruct (In_keys_get _ _ Hin) as [r Hr]. exists r. run. now rewrite Hr.
Qed.

Lemma all_known_of_keys (names : list string) :
  (forall name, In name names -> In name (Dict.keys (recipes (self w)))) ->
  Spec.all_known w (Ok names).
Proof.
  intros Hsub. apply List.Forall_forall. intros name Hin.
  apply known_of_key, Hsub, Hin.
Qed.

End Known.

(** C10. Each query leaves the object and the file system as they were,
    and every name that [get_cuisine_recommendations], [search_recipes] or
    [filter_recipes] returns is a key of the collection whose details
    [get_recipe_details] finds. *)
Theorem queries_do_not_write (w : world) :
  (forall cuisine,
     snd (get_cuisine_recommendations cuisine w) = w /\
     Spec.all_known w (fst (get_cuisine_recommendations cuisine w))) /\
  (forall query,
     snd (search_recipes query w) = w /\
     Spec.all_known w (fst (search_recipes query w))) /\
  (forall difficulty max_time min_rating,
     snd (filter_recipes difficulty max_time min_rating w) = w /\
     Spec.all_known w (fst (filter_recipes difficulty max_time min_rating w))) /\
  (forall name, snd (get_recipe_details name w) = w).
Proof.
  repeat split.
  - run. apply all_known_of_keys. intros name Hin.
    apply in_map_iff in Hin as (item & <- & Hitem).
    apply filter_In in Hitem as [Hitem _]. now apply in_map.
  - run. apply all_known_of_keys. intros name Hin.
    now apply filter_In in Hin as [Hin _].
  - run. now destruct (filter_loop _ _ _ _ _).
  - run.
    destruct (filter_loop difficulty max_time min_rating
                (Dict.items (recipes (self w))) []) as [names|e] eqn:E;
      [|exact I].
    apply all_known_of_keys. intros name Hin.
    destruct (filter_loop_names _ _ _ _ _ _ E name Hin) as [[]|Hk]. exact Hk.
Qed.

(** ** Saving and loading *)

Section JsonFacts.

Lemma to_strings_of_strings (l : list string) :
  Json.to_strings (JArray (map JString l)) = Some l.
Proof.
  simpl. induction l as [|s l IH]; [reflexivity|].
  simpl. now rewrite IH.
Qed.

(** Reading back the object written for a recipe gives the recipe. *)
Lemma to_recipe_of_recipe (r : Recipe) :
  Json.to_recipe (Json.of_recipe r) = Some r.
Proof.
  destruct r as [c i p d [x|]]; unfold Json.of_recipe, Json.to_recipe;
    cbn -[Json.to_strings]; now rewrite to_strings_of_strings.
Qed.

Lemma to_members_of_members (db : RecipeDatabase) :
  mapM (fun kv => r ← Json.to_recipe (snd kv); Some (fst kv, r))
    (map (fun kv => (fst kv, Json.of_recipe (snd kv))) db)
  = Some db.
Proof.
  induction db as [|[name r] db IH]; [reflexivity|].
  cbn [map mapM fst snd]. rewrite to_recipe_of_recipe. simpl.
  now rewrite IH.
Qed.

(** Reading back the document written for a collection gives the
    collection. *)
Lemma json_load_dump (db : RecipeDatabase) :
  Dict.wf db -> json_load (Json.dump db) = Collection db.
Proof.
  intros Hwf. unfold json_load, Json.dump, Json.to_database, Dict.items.
  rewrite to_members_of_members. simpl. now rewrite (of_pairs_wf db Hwf).
Qed.

End JsonFacts.

Section SaveFacts.

(** [save_recipes], step by step. *)
Lemma save_recipes_unfold (w : world) :
  save_recipes w =
  match Fs.mkdir_exist_ok (disk w) (Fs.parent (data_file (self w))) with
  | Ok fs =>
      match Fs.write_file fs (data_file (self w))
              (Document (Json.dump (recipes (self w)))) with
      | Ok fs' => (Ok tt, {| self := self w; disk := fs' |})
      | Raise e => (Raise e, {| self := self w; disk := fs |})
      end
  | Raise e => (Raise e, w)
  end.
Proof.
  unfold save_recipes, mbind, M_bind, get_data_file, get_recipes, syscall.
  cbn beta iota.
  destruct (Fs.mkdir_exist_ok _ _) as [fs|e]; [|reflexivity].
  cbn [disk self].
  now destruct (Fs.write_file _ _ _).
Qed.

(** [save_recipes] never changes the object. *)
Lemma save_recipes_self (w : world) : self (snd (save_recipes w)) = self w.
Proof.
  rewrite save_recipes_unfold.
  destruct (Fs.mkdir_exist_ok _ _) as [fs|e]; [|reflexivity].
  now destruct (Fs.write_file _ _ _).
Qed.

Lemma length_parent (p : path) :
  p <> [] -> S (length (Fs.parent p)) = length p.
Proof.
  intros Hp. unfold Fs.parent.
  rewrite (app_removelast_last "" Hp) at 2.
  rewrite length_app. simpl. lia.
Qed.

(** Changing the entry at [p] does not change the walk through paths
    that are shorter than [p]. *)
Lemma walk_insert (fs : gmap path node) (p : path) (n : node)
    (prefix rest : path) :
  (length prefix + length rest < length p)%nat ->
  Fs.walk (<[p := n]> fs) prefix rest = Fs.walk fs prefix rest.
Proof.
  revert prefix. induction rest as [|c rest IH]; intros prefix Hlen;
    [reflexivity|].
  cbn [Fs.walk]. simpl in Hlen. rewrite lookup_insert_ne.
  - destruct (fs !! (prefix ++ [c])) as [[|c']|]; try reflexivity.
    apply IH. rewrite length_app. simpl. lia.
  - intros ->. rewrite length_app in Hlen. simpl in Hlen. lia.
Qed.

Lemma write_file_ok (fs fs' : gmap path node) (p : path) (c : content) :
  Fs.write_file fs p c = Ok fs' -> Fs.read_file fs' p = Ok c.
Proof.
  unfold Fs.write_file, Fs.read_file, Fs.enter.
  destruct (Fs.walk fs [] (Fs.parent p)) as [[]|e] eqn:Hwalk; [|discriminate].
  destruct p as [|s p]; [discriminate|].
  assert (Hfs' : fs' = <[s :: p := File c]> fs -> Fs.walk fs' [] (Fs.parent (s :: p)) = Ok tt).
  { intros ->. rewrite walk_insert; [exact Hwalk|].
    pose proof (length_parent (s :: p)) as Hlen. simpl in *.
    specialize (Hlen ltac:(discriminate)). lia. }
  cbn [Fs.node_at].
  match goal with
  | |- match ?node with Some _ => _ | None => _ end = _ -> _ =>
      destruct node as [[|c']|]
  end;
    try discriminate;
    intros [= Hi]; symmetry in Hi; rewrite (Hfs' Hi); subst fs';
    now rewrite lookup_insert_eq.
Qed.

(** When [save_recipes] returns, the object is as before and the data
    file holds the document of the collection. *)
Lemma save_recipes_ok (w w' : world) :
  save_recipes w = (Ok tt, w') ->
  self w' = self w /\
  Fs.read_file (disk w') (data_file (self w))
  = Ok (Document (Json.dump (recipes (self w)))).
Proof.
  rewrite save_recipes_unfold.
  destruct (Fs.mkdir_exist_ok _ _) as [fs|e]; [|discriminate].
  destruct (Fs.write_file _ _ _) as [fs'|e] eqn:E; [|discriminate].
  intros [= <-]. apply write_file_ok in E. now split.
Qed.

End SaveFacts.

(** C8. When [save_recipes] returned, [_load_recipes] on the same data
    file yields the collection that was saved: the same names in the same
    order, each with the same cuisine, ingredients, preparation time,
    difficulty and rating, an absent rating staying absent. *)
Theorem save_then_load (w w' : world) :
  Dict.wf (recipes (self w)) ->
  save_recipes w = (Ok tt, w') ->
  _load_recipes (data_file (self w')) (disk w')
  = Ok (Collection (recipes (self w))).
Proof.
  intros Hwf Hsave. apply save_recipes_ok in Hsave as (Hself & Hfile).
  rewrite Hself. unfold _load_recipes. rewrite Hfile.
  now rewrite (json_load_dump _ Hwf).
Qed.

Lemma sample_recipes_wf : Dict.wf sample_recipes.
Proof.
  unfold Dict.wf. apply (bool_decide_unpack _). vm_compute. reflexivity.
Qed.

Lemma save_then_load_witness :
  Dict.wf (recipes (self sample_world)) /\
  save_recipes sample_world = (Ok tt, snd (save_recipes sample_world)) /\
  _load_recipes ["data"; "recipes.json"] (disk (snd (save_recipes sample_world)))
  = Ok (Collection sample_recipes).
Proof.
  assert (Hsave : save_recipes sample_world
                  = (Ok tt, snd (save_recipes sample_world)))
    by (vm_compute; reflexivity).
  split; [exact sample_recipes_wf|]. split; [exact Hsave|].
  exact (save_then_load sample_world (snd (save_recipes sample_world))
           sample_recipes_wf Hsave).
Defined.

(** ** Adding a recipe *)

Section AddFacts.
Variables (name cuisine : string) (ingredients : list string)
          (prep_time : Z) (difficulty : string) (rating : option float).

(** The dictionary [add_recipe] stores under [name]. *)
Local Notation "'new_recipe'" :=
  {| Cuisine := cuisine; Ingredients := ingredients;
     Prep_Time := prep_time; Difficulty := difficulty; Rating := rating |}.

(** A name that is present: nothing happens. *)
Lemma add_recipe_present (w : world) :
  Dict.contains (recipes (self w)) name = true ->
  add_recipe name cuisine ingredients prep_time difficulty rating w
  = (Ok false, w).
Proof.
  intros Hin. unfold add_recipe, mbind, M_bind, get_recipes. cbn beta iota.
  now rewrite Hin.
Qed.

(** A name that is absent: the recipe is stored, then [save_recipes]
    decides how the call ends. *)
Lemma add_recipe_absent (w : world) :
  Dict.contains (recipes (self w)) name = false ->
  add_recipe name cuisine ingredients prep_time difficulty rating w
  = match save_recipes (snd (set_recipe name new_recipe w)) with
    | (Ok _, w') => (Ok true, w')
    | (Raise e, w') => (Raise e, w')
    end.
Proof.
  intros Hout. unfold add_recipe, mbind, M_bind, get_recipes. cbn beta iota.
  rewrite Hout. unfold set_recipe at 1. cbn beta iota. unfold set_recipe.
  cbn [snd]. now destruct (save_recipes _) as [[[]|e] w'].
Qed.

(** C2, amended. For a name that is present [add_recipe] returns
    [False] and changes neither the collection nor the files. For a name
    that is absent it appends the recipe and runs [save_recipes]: when
    that returns, the data file holds the new collection, [add_recipe]
    returns [True], and a second call with the same name returns
    [False] and changes nothing; when it raises, [add_recipe] raises the
    same exception. *)
Theorem add_recipe_spec (w : world) :
  (Dict.contains (recipes (self w)) name = true ->
   add_recipe name cuisine ingredients prep_time difficulty rating w
   = (Ok false, w)) /\
  (Dict.contains (recipes (self w)) name = false ->
   forall w',
     (save_recipes (snd (set_recipe name new_recipe w)) = (Ok tt, w') ->
      add_recipe name cuisine ingredients prep_time difficulty rating w
      = (Ok true, w') /\
      recipes (self w') = recipes (self w) ++ [(name, new_recipe)] /\
      Fs.read_file (disk w') (data_file (self w'))
      = Ok (Document (Json.dump (recipes (self w')))) /\
      forall cuisine' ingredients' prep_time' difficulty' rating',
        add_recipe name cuisine' ingredients' prep_time' difficulty' rating' w'
        = (Ok false, w')) /\
     (forall e,
        save_recipes (snd (set_recipe name new_recipe w)) = (Raise e, w') ->
        add_recipe name cuisine ingredients prep_time difficulty rating w
        = (Raise e, w'))).
Proof.
  split; [apply add_recipe_present|].
  intros Hout w'. rewrite (add_recipe_absent w Hout). split.
  - intros Hsave. rewrite Hsave. split; [reflexivity|].
    apply save_recipes_ok in Hsave as (Hself & Hfile).
    rewrite Hself. cbn [set_recipe snd self recipes data_file] in *.
    split; [now apply set_fresh|]. split; [exact Hfile|].
    intros c' i' p' d' r'.
    unfold add_recipe, mbind, M_bind, get_recipes. cbn beta iota.
    rewrite Hself. cbn [recipes]. now rewrite contains_set_eq.
  - intros e Hsave. now rewrite Hsave.
Qed.

(** C5. After [add_recipe] returned [True] for a name that was absent,
    [get_recipe_details] of that name returns the recipe with exactly
    the cuisine, ingredients, preparation time, difficulty and rating
    that were passed. *)
Theorem add_then_get_details (w w' : world) :
  Dict.contains (recipes (self w)) name = false ->
  add_recipe name cuisine ingredients prep_time difficulty rating w
  = (Ok true, w') ->
  get_recipe_details name w' = (Ok (Some new_recipe), w').
Proof.
  intros Hout. rewrite (add_recipe_absent w Hout).
  pose proof (save_recipes_self (snd (set_recipe name new_recipe w))) as Hself.
  destruct (save_recipes _) as [[[]|e] w1]; [|discriminate].
  intros [= <-]. run. cbn [snd] in Hself. rewrite Hself.
  cbn [set_recipe snd self recipes]. now rewrite get_set_eq.
Qed.

End AddFacts.

(** C2, as stated, fails: created with a data file two directories down,
    none of which exists, the store loads the sample data; [add_recipe]
    with a new name then raises [FileNotFoundError] from [mkdir] instead
    of returning [True], the recipe being in the collection already. *)
Lemma add_recipe_unsaved_counterexample :
  _load_recipes (data_file (self nested_world)) (disk nested_world)
  = Ok (Collection (recipes (self nested_world))) /\
  Dict.contains (recipes (self nested_world)) "Toast" = false /\
  fst (add_recipe "Toast" "British" ["Bread"] 3 "Easy" None nested_world)
  = Raise FileNotFoundError /\
  Dict.contains
    (recipes (self (snd (add_recipe "Toast" "British" ["Bread"] 3 "Easy" None
                           nested_world)))) "Toast" = true.
Proof. repeat split; vm_compute; reflexivity. Qed.

Lemma add_recipe_spec_witness :
  Dict.contains (recipes (self sample_world)) "Toast" = false /\
  Dict.contains (recipes (self sample_world)) "Avocado Toast" = true /\
  fst (add_recipe "Toast" "British" ["Bread"] 3 "Easy" None sample_world)
  = Ok true /\
  add_recipe "Avocado Toast" "British" ["Bread"] 3 "Easy" None sample_world
  = (Ok false, sample_world).
Proof.
  split; [reflexivity|]. split; [reflexivity|].
  destruct (add_recipe_spec "Toast" "British" ["Bread"] 3 "Easy" None
              sample_world) as [_ Hnew].
  destruct (add_recipe_spec "Avocado Toast" "British" ["Bread"] 3 "Easy" None
              sample_world) as [Hold _].
  split; [|exact (Hold eq_refl)].
  destruct (Hnew eq_refl
              (snd (add_recipe "Toast" "British" ["Bread"] 3 "Easy" None
                      sample_world))) as [Hsaved _].
  destruct (Hsaved ltac:(vm_compute; reflexivity)) as [-> _].
  reflexivity.
Defined.

Lemma add_then_get_details_witness :
  Dict.contains (recipes (self sample_world)) "Toast" = false /\
  fst (get_recipe_details "Toast"
         (snd (add_recipe "Toast" "British" ["Bread"] 3 "Easy" None
                 sample_world)))
  = Ok (Some {| Cuisine := "British"; Ingredients := ["Bread"];
                Prep_Time := 3; Difficulty := "Easy"; Rating := None |}).
Proof.
  split; [reflexivity|].
  rewrite (add_then_get_details "Toast" "British" ["Bread"] 3 "Easy" None
             sample_world
             (snd (add_recipe "Toast" "British" ["Bread"] 3 "Easy" None
                     sample_world))
             eq_refl ltac:(vm_compute; reflexivity)).
  reflexivity.
Defined.


(** * Further properties of the store *)

(** ** Looking up *)

(** X1. [get_recipe_details] returns [None], and no exception, exactly for
    the names that are not keys of the collection. *)
Theorem get_recipe_details_missing (w : world) (name : string) :
  get_recipe_details name w = (Ok None, w) <->
  ~ In name (Dict.keys (recipes (self w))).
Proof.
  rewrite <- contains_false_iff. unfold Dict.contains. run.
  destruct (Dict.get (recipes (self w)) name) as [r|]; split;
    congruence || reflexivity || discriminate.
Qed.

(** ** What [add_recipe] keeps *)

Section AddKeeps.
Variables (name cuisine : string) (ingredients : list string)
          (prep_time : Z) (difficulty : string) (rating : option float).

Local Notation "'new_recipe'" :=
  {| Cuisine := cuisine; Ingredients := ingredients;
     Prep_Time := prep_time; Difficulty := difficulty; Rating := rating |}.

Local Notation "'added'" :=
  (add_recipe name cuisine ingredients prep_time difficulty rating).

(** However the call ends, the collection is the one before, or the one
    before with the new recipe appended. *)
Lemma add_recipe_collection (w : world) :
  self (snd (added w)) = self w \/
  (Dict.contains (recipes (self w)) name = false /\
   self (snd (added w))
   = {| data_file := data_file (self w);
        recipes := recipes (self w) ++ [(name, new_recipe)] |}).
Proof.
  destruct (Dict.contains (recipes (self w)) name) eqn:Hc.
  - left. now rewrite (add_recipe_present _ _ _ _ _ _ w Hc).
  - right. split; [reflexivity|].
    rewrite (add_recipe_absent _ _ _ _ _ _ w Hc).
    pose proof (save_recipes_self (snd (set_recipe name new_recipe w))) as Hs.
    destruct (save_recipes _) as [[[]|e] w1]; cbn [snd] in *; rewrite Hs;
      cbn [set_recipe snd self data_file recipes]; now rewrite set_fresh.
Qed.

(** X2. Whether [add_recipe] returns [True], returns [False] or raises,
    a collection with every key once is left with every key once, every
    recipe that was there is still there unchanged at its place, and the
    data file is the same. *)
Theorem add_recipe_keeps_collection (w : world) :
  Dict.wf (recipes (self w)) ->
  Dict.wf (recipes (self (snd (added w)))) /\
  (exists suffix,
     recipes (self (snd (added w))) = recipes (self w) ++ suffix) /\
  data_file (self (snd (added w))) = data_file (self w).
Proof.
  intros Hwf. destruct (add_recipe_collection w) as [-> | [Hc ->]].
  - split; [exact Hwf|]. split; [|reflexivity].
    exists []. now rewrite app_nil_r.
  - cbn [recipes data_file]. split; [|split; [now eexists | reflexivity]].
    unfold Dict.wf. rewrite keys_app. simpl.
    apply NoDup_app. split; [exact Hwf|]. split.
    + intros k Hk Hk'. apply list_elem_of_In in Hk.
      apply list_elem_of_singleton in Hk'. subst k.
      now apply contains_false_iff in Hc.
    + apply NoDup_singleton.
Qed.

(** X3. When [add_recipe] raises (the save failed), the recipe is in the
    collection all the same, and calling [add_recipe] again with that name
    returns [False] without saving: the recipe stays unsaved. *)
Theorem add_recipe_failed_save (w w' : world) (e : exn) :
  added w = (Raise e, w') ->
  Dict.get (recipes (self w')) name = Some new_recipe /\
  forall cuisine' ingredients' prep_time' difficulty' rating',
    add_recipe name cuisine' ingredients' prep_time' difficulty' rating' w'
    = (Ok false, w').
Proof.
  intros Hadd.
  destruct (Dict.contains (recipes (self w)) name) eqn:Hc.
  - rewrite (add_recipe_present _ _ _ _ _ _ w Hc) in Hadd. discriminate.
  - rewrite (add_recipe_absent _ _ _ _ _ _ w Hc) in Hadd.
    pose proof (save_recipes_self (snd (set_recipe name new_recipe w))) as Hs.
    destruct (save_recipes _) as [[[]|e'] w1]; [discriminate|].
    injection Hadd as _ <-. cbn [snd] in Hs.
    assert (Hget : Dict.get (recipes (self w1)) name = Some new_recipe).
    { rewrite Hs. cbn [set_recipe snd self recipes]. apply get_set_eq. }
    split; [exact Hget|]. intros c' i' p' d' r'.
    apply add_recipe_present. unfold Dict.contains. now rewrite Hget.
Qed.

(** X4. A recipe that [add_recipe] returned [True] for is on disk: loading
    the data file afterwards yields the collection before with the new
    recipe appended. *)
Theorem add_recipe_durable (w w' : world) :
  Dict.wf (recipes (self w)) ->
  added w = (Ok true, w') ->
  _load_recipes (data_file (self w')) (disk w')
  = Ok (Collection (recipes (self w) ++ [(name, new_recipe)])).
Proof.
  intros Hwf Hadd.
  pose proof (add_recipe_keeps_collection w Hwf) as (Hwf' & _ & _).
  rewrite Hadd in Hwf'. cbn [snd] in Hwf'.
  destruct (Dict.contains (recipes (self w)) name) eqn:Hc.
  - rewrite (add_recipe_present _ _ _ _ _ _ w Hc) in Hadd. discriminate.
  - rewrite (add_recipe_absent _ _ _ _ _ _ w Hc) in Hadd.
    destruct (save_recipes _) as [[[]|e'] w1] eqn:Hsave; [|discriminate].
    injection Hadd as <-.
    apply save_recipes_ok in Hsave as (Hself & Hfile).
    rewrite Hself in Hwf' |- *.
    cbn [set_recipe snd self recipes data_file] in *.
    rewrite (set_fresh _ _ _ Hc) in Hwf', Hfile.
    unfold _load_recipes. rewrite Hfile. now rewrite (json_load_dump _ Hwf').
Qed.

End AddKeeps.

(** ** Saving: which files it touches, when it succeeds *)

Section FsFacts.
Variable fs : gmap path node.


(** The last step of a walk. *)
Lemma walk_app_last (prefix rest : path) (c : string) :
  Fs.walk fs prefix (rest ++ [c]) =
  match Fs.walk fs prefix rest with
  | Ok _ =>
      match fs !! (prefix ++ rest ++ [c]) with
      | Some Dir => Ok tt
      | Some (File _) => Raise NotADirectoryError
      | None => Raise FileNotFoundError
      end
  | Raise e => Raise e
  end.
Proof.
  revert prefix. induction rest as [|a rest IH]; intros prefix.
  - cbn [app Fs.walk].
    match goal with
    | |- match ?node with Some _ => _ | None => _ end = _ =>
        now destruct node as [[|c']|]
    end.
  - cbn [app Fs.walk]. rewrite (IH (prefix ++ [a])), <- app_assoc. cbn [app].
    match goal with
    | |- match ?node with Some _ => _ | None => _ end = _ =>
        now destruct node as [[|c']|]
    end.
Qed.

(** A directory below the working directory is reached through its
    parent. *)
Lemma enter_step (d : path) :
  d <> [] ->
  Fs.enter fs d =
  match Fs.enter fs (Fs.parent d) with
  | Ok _ =>
      match fs !! d with
      | Some Dir => Ok tt
      | Some (File _) => Raise NotADirectoryError
      | None => Raise FileNotFoundError
      end
  | Raise e => Raise e
  end.
Proof.
  intros Hd. unfold Fs.enter, Fs.parent.
  pose proof (app_removelast_last "" Hd) as Hlast.
  replace (Fs.walk fs [] d)
    with (Fs.walk fs [] (removelast d ++ [List.last d ""])) by now rewrite <- Hlast.
  rewrite walk_app_last. cbn [app]. now rewrite <- Hlast.
Qed.

(** A directory that is reached is a directory, and so is its parent. *)
Lemma enter_ok (d : path) :
  Fs.enter fs d = Ok tt ->
  Fs.node_at fs d = Some Dir /\ Fs.enter fs (Fs.parent d) = Ok tt.
Proof.
  destruct d as [|c d]; [now split|]. rewrite enter_step by discriminate.
  cbn [Fs.node_at].
  destruct (Fs.enter fs (Fs.parent (c :: d))) as [[]|e]; [|discriminate].
  match goal with
  | |- match ?node with Some _ => _ | None => _ end = _ -> _ =>
      now destruct node as [[|c']|]
  end.
Qed.

End FsFacts.


(** Changing the entry at [p] does not change how the parent of [p], or
    the parent of that, is reached. *)
Lemma enter_insert_parent (fs : gmap path node) (p : path) (n : node) :
  p <> [] ->
  Fs.enter (<[p := n]> fs) (Fs.parent p) = Fs.enter fs (Fs.parent p).
Proof.
  intros Hp. unfold Fs.enter. apply walk_insert.
  pose proof (length_parent p Hp). simpl. lia.
Qed.

(** After [mkdir], the directory is there. *)
Lemma mkdir_exist_ok_ok (fs fs' : gmap path node) (d : path) :
  Fs.mkdir_exist_ok fs d = Ok fs' ->
  Fs.enter fs' d = Ok tt /\
  (forall q, q <> d -> fs' !! q = fs !! q) /\
  (forall q n, fs !! q = Some n -> fs' !! q = Some n).
Proof.
  unfold Fs.mkdir_exist_ok.
  destruct (Fs.enter fs (Fs.parent d)) as [[]|e] eqn:Hparent; [|discriminate].
  destruct d as [|c d].
  - intros [= <-]. now repeat split.
  - cbn [Fs.node_at].
    destruct (Fs.node_at fs (c :: d)) as [[|c']|] eqn:Hnode;
      cbn [Fs.node_at] in Hnode; rewrite Hnode; [| discriminate |];
      intros [= <-].
    + split; [|now split]. rewrite enter_step by discriminate.
      now rewrite Hparent, Hnode.
    + split; [|split].
      * rewrite enter_step, enter_insert_parent by discriminate.
        now rewrite Hparent, lookup_insert_eq.
      * intros q Hq. now apply lookup_insert_ne.
      * intros q n Hq. rewrite lookup_insert_ne; [exact Hq|]. congruence.
Qed.

Lemma write_file_inv (fs fs' : gmap path node) (p : path) (c : content) :
  Fs.write_file fs p c = Ok fs' ->
  p <> [] /\ Fs.enter fs (Fs.parent p) = Ok tt /\
  fs !! p <> Some Dir /\ fs' = <[p := File c]> fs.
Proof.
  unfold Fs.write_file.
  destruct (Fs.enter fs (Fs.parent p)) as [[]|e]; [|discriminate].
  destruct p as [|s p]; [discriminate|]. cbn [Fs.node_at].
  match goal with
  | |- match ?node with Some _ => _ | None => _ end = _ -> _ =>
      destruct node as [[|c']|]
  end; try discriminate; intros [= <-]; repeat split; discriminate.
Qed.

(** What a successful [save_recipes] did, step by step. *)
Lemma save_recipes_inv (w w' : world) :
  save_recipes w = (Ok tt, w') ->
  exists fs,
    Fs.mkdir_exist_ok (disk w) (Fs.parent (data_file (self w))) = Ok fs /\
    Fs.write_file fs (data_file (self w))
      (Document (Json.dump (recipes (self w)))) = Ok (disk w') /\
    self w' = self w.
Proof.
  rewrite save_recipes_unfold.
  destruct (Fs.mkdir_exist_ok _ _) as [fs|e]; [|discriminate].
  destruct (Fs.write_file _ _ _) as [fs'|e] eqn:E; [|discriminate].
  intros [= <-]. now exists fs.
Qed.

(** X5. Saving again right after a save that returned changes nothing:
    it returns, and the files are as the first save left them. *)
Theorem save_recipes_idempotent (w w' : world) :
  save_recipes w = (Ok tt, w') -> save_recipes w' = (Ok tt, w').
Proof.
  intros Hsave. apply save_recipes_inv in Hsave as (fs & _ & Hwrite & Hself).
  apply write_file_inv in Hwrite as (Hp & Henter & _ & Hdisk).
  rewrite save_recipes_unfold, Hself.
  set (p := data_file (self w)) in *.
  set (c := Document (Json.dump (recipes (self w)))) in *.
  assert (Henter' : Fs.enter (disk w') (Fs.parent p) = Ok tt).
  { now rewrite Hdisk, enter_insert_parent. }
  destruct (enter_ok _ _ Henter') as [Hnode Hup].
  unfold Fs.mkdir_exist_ok. rewrite Hup, Hnode.
  unfold Fs.write_file. rewrite Henter'.
  destruct p as [|s p]; [contradiction|]. cbn [Fs.node_at].
  rewrite Hdisk at 1. rewrite lookup_insert_eq.
  rewrite Hdisk at 1. rewrite insert_insert_eq, <- Hdisk, <- Hself.
  now destruct w'.
Qed.

Lemma save_recipes_idempotent_witness :
  save_recipes sample_world = (Ok tt, snd (save_recipes sample_world)) /\
  save_recipes (snd (save_recipes sample_world))
  = (Ok tt, snd (save_recipes sample_world)).
Proof.
  assert (H : save_recipes sample_world
              = (Ok tt, snd (save_recipes sample_world)))
    by (vm_compute; reflexivity).
  split; [exact H|].
  exact (save_recipes_idempotent sample_world _ H).
Defined.

(** X6. However [save_recipes] ends, it leaves the object as it was, keeps
    every file and directory other than the data file as it was, and
    creates nothing but the data file and its directory. *)
Theorem save_recipes_frame (w : world) (q : path) :
  q <> data_file (self w) ->
  self (snd (save_recipes w)) = self w /\
  (forall n, disk w !! q = Some n -> disk (snd (save_recipes w)) !! q = Some n) /\
  (q <> Fs.parent (data_file (self w)) ->
   disk (snd (save_recipes w)) !! q = disk w !! q).
Proof.
  intros Hq. split; [apply save_recipes_self|].
  rewrite save_recipes_unfold.
  destruct (Fs.mkdir_exist_ok _ _) as [fs|e] eqn:Hmk; [|now split].
  apply mkdir_exist_ok_ok in Hmk as (_ & Hother & Hkeep).
  destruct (Fs.write_file _ _ _) as [fs'|e] eqn:Hwrite; cbn [snd disk].
  - apply write_file_inv in Hwrite as (_ & _ & _ & ->).
    rewrite lookup_insert_ne by congruence. split; [apply Hkeep | apply Hother].
  - split; [apply Hkeep | apply Hother].
Qed.

Lemma save_recipes_frame_witness :
  ["notes.txt"] <> data_file (self sample_world) /\
  disk (snd (save_recipes
               {| self := self sample_world;
                  disk := {[ ["notes.txt"] := File Malformed ]} |}))
    !! ["notes.txt"]
  = Some (File Malformed).
Proof.
  split; [discriminate|].
  destruct (save_recipes_frame
              {| self := self sample_world;
                 disk := {[ ["notes.txt"] := File Malformed ]} |}
              ["notes.txt"] ltac:(discriminate)) as (_ & Hkeep & _).
  apply Hkeep. reflexivity.
Defined.




Lemma add_recipe_keeps_collection_witness :
  Dict.wf (recipes (self nested_world)) /\
  Dict.wf
    (recipes (self (snd (add_recipe "Toast" "British" ["Bread"] 3 "Easy" None
                           nested_world)))).
Proof.
  split; [exact sample_recipes_wf|].
  exact (proj1 (add_recipe_keeps_collection "Toast" "British" ["Bread"] 3
                  "Easy" None nested_world sample_recipes_wf)).
Defined.

Lemma add_recipe_failed_save_witness :
  fst (add_recipe "Toast" "British" ["Bread"] 3 "Easy" None nested_world)
  = Raise FileNotFoundError /\
  fst (add_recipe "Toast" "French" [] 1 "Hard" None
         (snd (add_recipe "Toast" "British" ["Bread"] 3 "Easy" None
                 nested_world)))
  = Ok false.
Proof.
  split; [vm_compute; reflexivity|].
  destruct (add_recipe_failed_save "Toast" "British" ["Bread"] 3 "Easy" None
              nested_world
              (snd (add_recipe "Toast" "British" ["Bread"] 3 "Easy" None
                      nested_world))
              FileNotFoundError ltac:(vm_compute; reflexivity)) as [_ Hagain].
  now rewrite Hagain.
Defined.

Lemma add_recipe_durable_witness :
  Dict.wf (recipes (self sample_world)) /\
  _load_recipes ["data"; "recipes.json"]
    (disk (snd (add_recipe "Toast" "British" ["Bread"] 3 "Easy" None
                  sample_world)))
  = Ok (Collection
          (sample_recipes ++
           [("Toast", {| Cuisine := "British"; Ingredients := ["Bread"];
                         Prep_Time := 3; Difficulty := "Easy";
                         Rating := None |})])).
Proof.
  split; [exact sample_recipes_wf|].
  exact (add_recipe_durable "Toast" "British" ["Bread"] 3 "Easy" None
           sample_world
           (snd (add_recipe "Toast" "British" ["Bread"] 3 "Easy" None
                   sample_world))
           sample_recipes_wf ltac:(vm_compute; reflexivity)).
Defined.

(** ** More on the queries *)

Section FilterReturns.
Variables (difficulty : option string) (max_time : option Z)
          (min_rating : option float).

Lemma filter_matches_returns (r : Recipe) :
  Spec.given_float min_rating = None \/ Rating r <> None ->
  exists matches,
    filter_matches difficulty max_time min_rating r = Ok matches.
Proof.
  unfold filter_matches, Spec.given_float.
  destruct min_rating as [m|]; [|eauto].
  destruct (PrimFloat.eqb m 0); [eauto|]. cbn [negb].
  destruct (Rating r) as [x|]; [eauto|]. intros [H|H]; congruence.
Qed.

Lemma filter_loop_returns (items : list (string * Recipe))
    (filtered : list string) :
  Spec.given_float min_rating = None \/
  Forall (fun item => Rating (snd item) <> None) items ->
  exists names,
    filter_loop difficulty max_time min_rating items filtered = Ok names.
Proof.
  revert filtered. induction items as [|[name r] items IH];
    intros filtered Hok; cbn [filter_loop]; [eauto|].
  destruct (filter_matches_returns r) as [matches ->].
  - destruct Hok as [H|H]; [now left | right].
    now apply Forall_cons_1 in H as [H _].
  - apply IH. destruct Hok as [H|H]; [now left | right].
    now apply Forall_cons_1 in H as [_ H].
Qed.

End FilterReturns.

(** X9. [filter_recipes] returns a list exactly when no minimum rating
    other than zero is given or every recipe of the collection has a
    rating; otherwise it raises. *)
Theorem filter_recipes_returns_iff (w : world) (difficulty : option string)
    (max_time : option Z) (min_rating : option float) :
  (exists names,
     filter_recipes difficulty max_time min_rating w = (Ok names, w)) <->
  Spec.given_float min_rating = None \/
  Forall (fun item => Rating (snd item) <> None) (Dict.items (recipes (self w))).
Proof.
  split.
  - intros [names Hret].
    destruct (Spec.given_float min_rating) as [m|] eqn:Hm; [right | now left].
    apply Forall_Exists_neg. intros Hex.
    apply (Exists_impl _ (fun item => Rating (snd item) = None)) in Hex.
    + revert Hret. run.
      now rewrite (filter_loop_unrated difficulty max_time min_rating _ [] m Hm Hex).
    + intros item Hitem. destruct (Rating (snd item)); [|reflexivity].
      now destruct Hitem.
  - intros Hok. run.
    destruct (filter_loop_returns difficulty max_time min_rating _ [] Hok)
      as [names ->].
    now exists names.
Qed.






(** X12. With no constraint given (each argument absent, empty or zero)
    [filter_recipes] returns every name of the collection, rated or not. *)
Theorem filter_recipes_unconstrained (w : world) (difficulty : option string)
    (max_time : option Z) (min_rating : option float) :
  Spec.given_str difficulty = None ->
  Spec.given_int max_time = None ->
  Spec.given_float min_rating = None ->
  filter_recipes difficulty max_time min_rating w
  = (Ok (Dict.keys (recipes (self w))), w).
Proof.
  intros Hd Ht Hm. run. unfold Dict.items.
  rewrite (filter_loop_given difficulty max_time min_rating _ []).
  - rewrite Hd, Ht, Hm. unfold Spec.names_satisfying, Dict.items. cbn [app].
    induction (recipes (self w)) as [|item db IH]; [reflexivity|].
    simpl. simpl in IH. injection IH as IH. now rewrite IH.
  - unfold Spec.ratings_comparable. now rewrite Hm.
Qed.

Lemma filter_recipes_unconstrained_witness :
  fst (filter_recipes (Some "") (Some 0) (Some (-0)%float) sample_world)
  = Ok ["Spaghetti Carbonara"; "Chicken Tikka Masala"; "Avocado Toast"].
Proof.
  now rewrite (filter_recipes_unconstrained sample_world (Some "") (Some 0)
                 (Some (-0)%float) eq_refl eq_refl eq_refl).
Defined.

Section Order.

Lemma filter_sublist {A : Type} (keep : A -> bool) (l : list A) :
  sublist (List.filter keep l) l.
Proof.
  induction l as [|a l IH]; simpl; [constructor|].
  destruct (keep a); now constructor.
Qed.

Lemma map_sublist {A B : Type} (f : A -> B) (l k : list A) :
  sublist l k -> sublist (map f l) (map f k).
Proof. induction 1; simpl; now constructor. Qed.

(** The loop appends to [filtered] names of the items, in their order. *)
Lemma filter_loop_sublist (difficulty : option string) (max_time : option Z)
    (min_rating : option float) (items : list (string * Recipe))
    (filtered names : list string) :
  filter_loop difficulty max_time min_rating items filtered = Ok names ->
  exists more, names = filtered ++ more /\ sublist more (map fst items).
Proof.
  revert filtered. induction items as [|[name r] items IH];
    intros filtered; cbn [filter_loop].
  - intros [= <-]. exists []. split; [now rewrite app_nil_r | constructor].
  - destruct (filter_matches difficulty max_time min_rating r) as [[]|e];
      [| |discriminate]; intros Hloop;
      destruct (IH _ Hloop) as (more & -> & Hsub).
    + exists (name :: more). split; [now rewrite <- app_assoc|].
      now constructor.
    + exists more. split; [reflexivity|]. now constructor.
Qed.

End Order.

(** X13. In a collection with every key once, the names that
    [get_cuisine_recommendations], [search_recipes] and [filter_recipes]
    return come in the order of the collection, and no name comes
    twice. *)
Theorem query_results_in_key_order (w : world) :
  Dict.wf (recipes (self w)) ->
  (forall cuisine,
     in_key_order w (fst (get_cuisine_recommendations cuisine w)) /\
     distinct_names (fst (get_cuisine_recommendations cuisine w))) /\
  (forall query,
     in_key_order w (fst (search_recipes query w)) /\
     distinct_names (fst (search_recipes query w))) /\
  (forall difficulty max_time min_rating,
     in_key_order w (fst (filter_recipes difficulty max_time min_rating w)) /\
     distinct_names (fst (filter_recipes difficulty max_time min_rating w))).
Proof.
  intros Hwf.
  assert (Hdistinct : forall res, in_key_order w res -> distinct_names res).
  { intros [names|e] Hsub; [|exact I].
    eapply sublist_NoDup; [exact Hwf | exact Hsub]. }
  assert (Hrec : forall cuisine,
             in_key_order w (fst (get_cuisine_recommendations cuisine w))).
  { intros cuisine. run. cbn [fst in_key_order].
    apply map_sublist, filter_sublist. }
  assert (Hsearch : forall query,
             in_key_order w (fst (search_recipes query w))).
  { intros query. run. cbn [fst in_key_order]. apply filter_sublist. }
  assert (Hfilter : forall difficulty max_time min_rating,
             in_key_order w
               (fst (filter_recipes difficulty max_time min_rating w))).
  { intros difficulty max_time min_rating. run.
    destruct (filter_loop difficulty max_time min_rating
                (Dict.items (recipes (self w))) []) as [names|e] eqn:E;
      [|exact I].
    apply filter_loop_sublist in E as (more & -> & Hsub). exact Hsub. }
  repeat split; auto.
Qed.

Lemma query_results_in_key_order_witness :
  Dict.wf (recipes (self sample_world)) /\
  distinct_names (fst (search_recipes "a" sample_world)).
Proof.
  split; [exact sample_recipes_wf|].
  destruct (query_results_in_key_order sample_world sample_recipes_wf)
    as (_ & Hsearch & _).
  exact (proj2 (Hsearch "a")).
Defined.

(** ** Queries after [add_recipe] *)

Section AfterAdd.
Variables (name cuisine : string) (ingredients : list string)
          (prep_time : Z) (difficulty : string) (rating : option float).




End AfterAdd.



(** * Properties of the page *)

(** Unfolds the monad of the script down to the pair a piece computes. *)
Ltac run_ui :=
  unfold mbind, UI_bind, mret, UI_ret, show, ask, call; cbn beta iota.

Section PageFacts.
Variable float_repr : float -> string.

Lemma for_each_show {A : Type} (f : A -> element) (l : list A)
    (wd : widgets) (pg : page) :
  only_shows (for_each l (fun a => show (f a))) wd pg (map f l).
Proof.
  unfold only_shows. revert pg.
  induction l as [|a l IH]; intros pg; cbn [for_each map].
  - run_ui. rewrite app_nil_r. now destruct pg.
  - unfold mbind, UI_bind. unfold show at 1. cbn beta iota. rewrite IH.
    cbn [session shown]. now rewrite <- app_assoc.
Qed.

Lemma display_recipe_details_run (name : string) (wd : widgets) (pg : page) :
  only_shows (App.display_recipe_details float_repr name) wd pg
    match Dict.get (recipes (self (session pg))) name with
    | Some recipe => details_of float_repr name recipe
    | None => [st_error "Recipe not found."]
    end.
Proof.
  unfold only_shows, App.display_recipe_details.
  unfold mbind at 1. unfold UI_bind at 1.
  unfold call, get_recipe_details, get_recipes, mbind, M_bind, mret, M_ret.
  cbn beta iota. cbn [fst snd session shown].
  destruct (Dict.get (recipes (self (session pg))) name) as [recipe|].
  - unfold UI_bind at 1. unfold show at 1. cbn beta iota.
    unfold UI_bind at 1. unfold show at 1. cbn beta iota.
    unfold UI_bind at 1. unfold show at 1. cbn beta iota.
    unfold UI_bind at 1. rewrite for_each_show.
    unfold UI_bind, show. cbn [session shown]. unfold details_of.
    now rewrite <- !app_assoc.
  - unfold show. now destruct pg.
Qed.

End PageFacts.

(** ** Stripping and splitting *)

Section TextFacts.

(** A stripped-on-the-left string does not start with a space. *)
Lemma lstrip_head (s : string) :
  match Text.lstrip s with
  | EmptyString => True
  | String c _ => Text.is_space c = false
  end.
Proof.
  induction s as [|c s IH]; simpl; [exact I|].
  destruct (Text.is_space c) eqn:E; [exact IH | exact E].
Qed.

Lemma rstrip_idemp (s : string) : Text.rstrip (Text.rstrip s) = Text.rstrip s.
Proof.
  induction s as [|c s IH]; [reflexivity|]. cbn [Text.rstrip].
  destruct (Text.rstrip s) as [|d r] eqn:E.
  - destruct (Text.is_space c) eqn:Ec; [reflexivity|].
    cbn [Text.rstrip]. now rewrite Ec.
  - cbn [Text.rstrip] in *. now rewrite IH.
Qed.

(** Stripping on the right keeps a first character that is not a space. *)
Lemma rstrip_head (c : ascii) (s : string) :
  Text.is_space c = false ->
  exists r, Text.rstrip (String c s) = String c r.
Proof.
  intros Ec. cbn [Text.rstrip].
  destruct (Text.rstrip s); [rewrite Ec|]; eauto.
Qed.

Lemma strip_idemp (s : string) : Text.strip (Text.strip s) = Text.strip s.
Proof.
  unfold Text.strip. pose proof (lstrip_head s) as Hhead.
  destruct (Text.lstrip s) as [|c t]; [reflexivity|].
  destruct (rstrip_head c t Hhead) as [r Hr]. rewrite Hr.
  cbn [Text.lstrip]. rewrite Hhead, <- Hr. apply rstrip_idemp.
Qed.

Lemma lstrip_blank (s : string) : blank s = true -> Text.lstrip s = "".
Proof.
  induction s as [|c s IH]; [reflexivity|]. cbn [blank Text.lstrip].
  intros [Hc Hs]%andb_true_iff. rewrite Hc. auto.
Qed.

Lemma strip_blank (s : string) : blank s = true -> Text.strip s = "".
Proof. intros H. unfold Text.strip. now rewrite lstrip_blank. Qed.

Lemma split_blank (sep : ascii) (s : string) :
  blank s = true -> Forall (fun part => blank part = true) (Text.split sep s).
Proof.
  induction s as [|c s IH]; cbn [blank Text.split].
  - intros _. now repeat constructor.
  - intros [Hc Hs]%andb_true_iff. specialize (IH Hs).
    destruct (Ascii.eqb c sep).
    + now constructor.
    + destruct (Text.split sep s) as [|h t].
      { constructor; [|constructor]. cbn [blank]. now rewrite Hc. }
      apply Forall_cons_1 in IH as [Hh Ht]. constructor; [|exact Ht].
      cbn [blank]. now rewrite Hc, Hh.
Qed.

End TextFacts.

(** ** What the page shows *)

Section PageShows.
Variable float_repr : float -> string.

Lemma buttons_app (l k : list element) : buttons (l ++ k) = buttons l ++ buttons k.
Proof. apply List.filter_app. Qed.

Lemma buttons_details (name : string) (recipe : Recipe) :
  buttons (details_of float_repr name recipe) = [].
Proof.
  unfold details_of. rewrite !buttons_app. cbn.
  induction (Ingredients recipe) as [|i l IH]; [reflexivity | exact IH].
Qed.

(** X16. [display_recipe_details] returns and leaves the store and the
    files as they were; it shows the error "Recipe not found.", and
    nothing else, exactly for a name that is not a key of the collection,
    and it never shows a button. *)
Theorem display_recipe_details_shows (name : string) (wd : widgets) (pg : page) :
  exists more,
    only_shows (App.display_recipe_details float_repr name) wd pg more /\
    (more = [st_error "Recipe not found."] <->
     ~ In name (Dict.keys (recipes (self (session pg))))) /\
    buttons more = [].
Proof.
  eexists. split; [apply display_recipe_details_run|].
  rewrite <- contains_false_iff. unfold Dict.contains.
  destruct (Dict.get (recipes (self (session pg))) name) as [recipe|].
  - split; [|apply buttons_details]. split; discriminate.
  - now split.
Qed.

(** X17. A recipe without a rating, and a recipe with a rating of zero,
    are shown alike: the last line of the details is "Rating: Not
    rated". *)
Theorem display_recipe_details_not_rated (name : string) (recipe : Recipe)
    (wd : widgets) (pg : page) :
  Dict.get (recipes (self (session pg))) name = Some recipe ->
  Rating recipe = None \/
  (exists x, Rating recipe = Some x /\ PrimFloat.eqb x 0%float = true) ->
  exists more,
    only_shows (App.display_recipe_details float_repr name) wd pg more /\
    List.last more (st_write "") = st_write "**Rating:** Not rated".
Proof.
  intros Hget Hrating. eexists. split; [apply display_recipe_details_run|].
  rewrite Hget. unfold details_of.
  assert (Hlast : forall (l k : list element) (e d : element),
             List.last (l ++ e :: k) d = List.last (e :: k) d).
  { induction l as [|a l IH]; intros k e d; [reflexivity|].
    cbn [app]. rewrite <- (IH k e d). cbn [List.last].
    now destruct (l ++ e :: k) eqn:E; [destruct l; discriminate|]. }
  rewrite app_assoc, Hlast. cbn [List.last].
  destruct Hrating as [-> | (x & -> & Hx)]; [reflexivity|].
  unfold App.float_truthy. now rewrite Hx.
Qed.

(** The loop of [display_recipe_list]: one button for each name, and
    below it the details of the names whose button was clicked. *)
Lemma recipe_buttons_run (names : list string) (wd : widgets) (pg : page) :
  exists more,
    only_shows
      (for_each names
         (fun recipe =>
            clicked ← ask (st_button recipe (Some ("btn_" +:+ recipe)))
                        (fun wd => button wd recipe (Some ("btn_" +:+ recipe)));
            if clicked : bool
            then App.display_recipe_details float_repr recipe
            else mret tt))
      wd pg more /\
    buttons more = map button_of names /\
    ~ In (st_warning "No recipes found matching your criteria.") more.
Proof.
  unfold only_shows. revert pg.
  induction names as [|name names IH]; intros pg; cbn [for_each].
  - exists []. run_ui. rewrite app_nil_r.
    split; [now destruct pg | split; [reflexivity | intros []]].
  - unfold mbind at 1. unfold UI_bind at 1. unfold mbind at 1.
    unfold UI_bind at 1. unfold ask at 1. cbn beta iota.
    destruct (button wd name (Some ("btn_" +:+ name))).
    + rewrite (display_recipe_details_run float_repr name wd).
      cbn [session shown].
      match goal with
      | |- context [for_each names ?body wd ?pg1] =>
          destruct (IH pg1) as (more & -> & Hbuttons & Hwarn)
      end.
      cbn [session shown]. eexists. split; [now rewrite <- !app_assoc|].
      split.
      * rewrite !buttons_app, Hbuttons.
        destruct (Dict.get _ name) as [recipe|];
          [rewrite buttons_details|]; reflexivity.
      * intros Hin. apply in_app_or in Hin as [[Hin|[]]|Hin]; [discriminate|].
        apply in_app_or in Hin as [Hin|Hin]; [|now apply Hwarn].
        destruct (Dict.get _ name) as [recipe|].
        -- unfold details_of in Hin.
           apply in_app_or in Hin as [Hin|Hin].
           { repeat destruct Hin as [Hin|Hin]; try discriminate.
             contradiction. }
           apply in_app_or in Hin as [Hin|Hin].
           { apply in_map_iff in Hin as (i & Hi & _). discriminate. }
           repeat destruct Hin as [Hin|Hin]; try discriminate. contradiction.
        -- destruct Hin as [Hin|[]]. discriminate.
    + unfold mret at 1. unfold UI_ret at 1.
      match goal with
      | |- context [for_each names ?body wd ?pg1] =>
          destruct (IH pg1) as (more & -> & Hbuttons & Hwarn)
      end.
      cbn [session shown]. eexists. split; [now rewrite <- !app_assoc|].
      split.
      * rewrite buttons_app, Hbuttons. reflexivity.
      * intros Hin. apply in_app_or in Hin as [[Hin|[]]|Hin];
          [discriminate | now apply Hwarn].
Qed.

(** X18. [display_recipe_list] returns and leaves the store and the
    files as they were. For an empty list it shows one warning; otherwise
    it shows no warning and exactly one button for each name, in the order
    of the list, keyed by "btn_" and the name. *)
Theorem display_recipe_list_shows (names : list string) (wd : widgets)
    (pg : page) :
  exists more,
    only_shows (App.display_recipe_list float_repr names) wd pg more /\
    buttons more = map button_of names /\
    match names with
    | [] => more = [st_warning "No recipes found matching your criteria."]
    | _ :: _ =>
        ~ In (st_warning "No recipes found matching your criteria.") more
    end.
Proof.
  destruct names as [|name names].
  - eexists. split; [reflexivity|]. now split.
  - apply (recipe_buttons_run (name :: names)).
Qed.

End PageShows.

Lemma ingredient_list_stripped_aux (ingredients : string) :
  Forall (fun i => i <> "" /\ Text.strip i = i)
    (App.ingredient_list ingredients).
Proof.
  unfold App.ingredient_list. apply List.Forall_forall. intros i Hin.
  apply in_map_iff in Hin as (line & <- & Hline).
  apply filter_In in Hline as [_ Htruthy]. split.
  - intros Hempty. rewrite Hempty in Htruthy. discriminate.
  - apply strip_idemp.
Qed.

(** X24. The ingredients the form passes on are the lines of the text
    area stripped of the spaces around them, the empty ones left out:
    none is empty and none starts or ends with a space. *)
Theorem ingredient_list_stripped (ingredients : string) :
  Forall (fun i => i <> "" /\ Text.strip i = i)
    (App.ingredient_list ingredients).
Proof. apply ingredient_list_stripped_aux. Qed.

(** X25. A text area that holds spaces and newlines only counts as
    filled in the check of the required fields when it is not empty, and
    yet gives no ingredient at all. *)
Theorem ingredient_list_blank (ingredients : string) :
  blank ingredients = true -> App.ingredient_list ingredients = [].
Proof.
  intros Hblank. unfold App.ingredient_list.
  pose proof (split_blank Text.newline ingredients Hblank) as Hparts.
  induction Hparts as [|part parts Hpart _ IH]; [reflexivity|].
  cbn [List.filter]. now rewrite (strip_blank part Hpart).
Qed.

Lemma ingredient_list_blank_witness :
  blank "  " = true /\ Str.truthy "  " = true /\ App.ingredient_list "  " = [].
Proof.
  split; [reflexivity|]. split; [reflexivity|].
  exact (ingredient_list_blank "  " eq_refl).
Defined.

(** ** A run of [main] *)

(** Unfolds a page of the script down to its calls of the store and of
    [display_recipe_list]. *)
Ltac run_page :=
  cbv [mbind UI_bind mret UI_ret show ask call]; cbn [fst snd session shown].

Lemma ui_bind_unfold {A B : Type} (m : UI A) (f : A -> UI B)
    (wd : widgets) (pg : page) :
  (m ≫= f) wd pg =
  match m wd pg with
  | (Ok a, pg') => f a wd pg'
  | (Raise e, pg') => (Raise e, pg')
  end.
Proof. reflexivity. Qed.

Lemma ui_ask_unfold {A : Type} (e : element) (value : widgets -> A)
    (wd : widgets) (pg : page) :
  ask e value wd pg
  = (Ok (value wd), {| session := session pg; shown := shown pg ++ [e] |}).
Proof. reflexivity. Qed.

Section MainFacts.
Variable float_repr : float -> string.

Lemma display_recipe_list_run (names : list string) (wd : widgets) (pg : page) :
  exists more,
    only_shows (App.display_recipe_list float_repr names) wd pg more /\
    buttons more = map button_of names.
Proof.
  destruct names as [|name names].
  - eexists. split; reflexivity.
  - destruct (recipe_buttons_run float_repr (name :: names) wd pg)
      as (more & Hrun & Hbuttons & _).
    now exists more.
Qed.

(** [display_recipe_list] reads the buttons only. *)
Lemma display_recipe_list_buttons (names : list string) (wd wd' : widgets)
    (pg : page) :
  button wd = button wd' ->
  App.display_recipe_list float_repr names wd pg
  = App.display_recipe_list float_repr names wd' pg.
Proof.
  intros Hb. destruct names as [|name names]; [reflexivity|].
  unfold App.display_recipe_list.
  generalize (name :: names) as l. clear name names. intros l. revert pg.
  induction l as [|name l IH]; intros pg; [reflexivity|].
  cbn [for_each]. rewrite !ui_bind_unfold, !ui_ask_unfold, Hb.
  destruct (button wd' name (Some ("btn_" +:+ name))).
  - rewrite !(display_recipe_details_run float_repr name). apply IH.
  - unfold mret, UI_ret. apply IH.
Qed.

End MainFacts.

Section MainRuns.
Variable float_repr : float -> string.

Lemma ui_show_unfold {B : Type} (e : element) (k : UI B)
    (wd : widgets) (pg : page) :
  (show e;; k) wd pg
  = k wd {| session := session pg; shown := shown pg ++ [e] |}.
Proof. reflexivity. Qed.

Lemma ui_call_unfold {A B : Type} (m : M A) (f : A -> UI B)
    (wd : widgets) (pg : page) :
  (call m ≫= f) wd pg =
  match fst (m (session pg)) with
  | Ok a => f a wd {| session := snd (m (session pg)); shown := shown pg |}
  | Raise e =>
      (Raise e, {| session := snd (m (session pg)); shown := shown pg |})
  end.
Proof.
  rewrite ui_bind_unfold. unfold call. now destruct (fst (m (session pg))).
Qed.

(** [main] shows its head and goes to the page of the menu entry. *)
Lemma main_unfold (wd : widgets) (pg : page) :
  App.main float_repr wd pg =
  let pg0 := {| session := session pg; shown := shown pg ++ main_head |} in
  let choice := selectbox wd "Menu" in
  if String.eqb choice "Get Recommendations"
  then App.page_recommendations float_repr wd pg0
  else if String.eqb choice "Search Recipes"
  then App.page_search float_repr wd pg0
  else if String.eqb choice "Filter Recipes"
  then App.page_filter float_repr wd pg0
  else if String.eqb choice "Add New Recipe"
  then App.page_add wd pg0
  else if String.eqb choice "View All Recipes"
  then App.page_all float_repr wd pg0
  else (Ok tt, pg0).
Proof.
  unfold App.main. rewrite !ui_show_unfold, ui_bind_unfold, ui_ask_unfold.
  cbn [session shown]. unfold main_head. rewrite <- !app_assoc. cbn [app].
  cbn zeta.
  repeat match goal with
         | |- context [String.eqb ?a ?b] => destruct (String.eqb a b)
         end;
    reflexivity.
Qed.

(** X23. On the page "View All Recipes" a run returns, leaves the store
    and the files as they were, and shows exactly one button for each
    recipe of the collection, in iteration order. *)
Theorem main_view_all (wd : widgets) (pg : page) :
  selectbox wd "Menu" = "View All Recipes" ->
  exists more,
    only_shows (App.main float_repr) wd pg more /\
    buttons more = map button_of (Dict.keys (recipes (self (session pg)))).
Proof.
  intros Hmenu. unfold only_shows. rewrite main_unfold, Hmenu. cbn zeta.
  cbn [String.eqb Ascii.eqb Bool.eqb].
  unfold App.page_all. rewrite ui_show_unfold, ui_call_unfold.
  unfold get_keys. cbn [fst snd session shown].
  match goal with
  | |- context [App.display_recipe_list float_repr ?names wd ?pg1] =>
      destruct (display_recipe_list_run float_repr names wd pg1)
        as (more & Hrun & Hbuttons)
  end.
  unfold only_shows in Hrun. rewrite Hrun. cbn [session shown].
  exists (main_head ++ [st_header "All Recipes"] ++ more). split.
  - now rewrite <- !app_assoc.
  - rewrite !buttons_app, Hbuttons. reflexivity.
Qed.

End MainRuns.

(** ** The pages that only read *)

Section Keeps.
Variable float_repr : float -> string.
Variable wd : widgets.

Lemma keeps_ret {A : Type} (a : A) : keeps_session (mret a : UI A) wd.
Proof. now intros pg. Qed.

Lemma keeps_show (e : element) : keeps_session (show e) wd.
Proof. now intros pg. Qed.

Lemma keeps_show_then {B : Type} (e : element) (k : UI B) :
  keeps_session k wd -> keeps_session (show e;; k) wd.
Proof. intros Hk pg. now rewrite ui_show_unfold, Hk. Qed.

Lemma keeps_ask_then {A B : Type} (e : element) (value : widgets -> A)
    (f : A -> UI B) :
  keeps_session (f (value wd)) wd -> keeps_session (ask e value ≫= f) wd.
Proof. intros Hf pg. now rewrite ui_bind_unfold, ui_ask_unfold, Hf. Qed.

(** A method that leaves the world as it was may be called. *)
Lemma keeps_call_then {A B : Type} (m : M A) (f : A -> UI B) :
  (forall w, snd (m w) = w) ->
  (forall a, keeps_session (f a) wd) ->
  keeps_session (call m ≫= f) wd.
Proof.
  intros Hm Hf pg. rewrite ui_call_unfold, Hm.
  destruct (fst (m (session pg))) as [a|e]; [now rewrite Hf | reflexivity].
Qed.

Lemma keeps_display_recipe_list (names : list string) :
  keeps_session (App.display_recipe_list float_repr names) wd.
Proof.
  intros pg. destruct (display_recipe_list_run float_repr names wd pg)
    as (more & Hrun & _).
  unfold only_shows in Hrun. now rewrite Hrun.
Qed.

Lemma filter_recipes_world (difficulty : option string) (max_time : option Z)
    (min_rating : option float) (w : world) :
  snd (filter_recipes difficulty max_time min_rating w) = w.
Proof. run. now destruct (filter_loop _ _ _ _ _). Qed.

Lemma keeps_page_recommendations :
  keeps_session (App.page_recommendations float_repr) wd.
Proof.
  unfold App.page_recommendations.
  apply keeps_show_then, keeps_ask_then.
  destruct (Str.truthy _); [|apply keeps_ret].
  apply keeps_call_then; [reflexivity|]. intros [|name names].
  - apply keeps_show.
  - apply keeps_show_then, keeps_display_recipe_list.
Qed.

Lemma keeps_page_search : keeps_session (App.page_search float_repr) wd.
Proof.
  unfold App.page_search. apply keeps_show_then, keeps_ask_then.
  destruct (Str.truthy _); [|apply keeps_ret].
  apply keeps_call_then; [reflexivity|]. intros names.
  apply keeps_display_recipe_list.
Qed.

Lemma keeps_page_filter : keeps_session (App.page_filter float_repr) wd.
Proof.
  unfold App.page_filter.
  apply keeps_show_then, keeps_show_then, keeps_ask_then, keeps_ask_then,
    keeps_ask_then, keeps_ask_then.
  destruct (button wd "Apply Filters" None); [|apply keeps_ret].
  apply keeps_call_then; [apply filter_recipes_world|]. intros names.
  apply keeps_display_recipe_list.
Qed.

Lemma keeps_page_all : keeps_session (App.page_all float_repr) wd.
Proof.
  unfold App.page_all. apply keeps_show_then.
  apply keeps_call_then; [reflexivity|]. intros names.
  apply keeps_display_recipe_list.
Qed.

End Keeps.

(** ** The form *)

Section Form.
Variable wd : widgets.

(** The arguments the form passes to [add_recipe]. *)
Local Notation "'form_name'" := (text_input wd "Recipe Name*").
Local Notation "'form_cuisine'" := (text_input wd "Cuisine*").
Local Notation "'form_ingredients'" :=
  (text_area wd "Ingredients (one per line)*").
Local Notation "'form_prep_time'" := (number_input wd "Prep Time (minutes)*").
Local Notation "'form_difficulty'" := (selectbox wd "Difficulty*").
Local Notation "'form_rating'" :=
  (if PrimFloat.eqb (slider_float wd "Rating (optional)") 0%float
   then None else Some (slider_float wd "Rating (optional)")).

(** The form calls [add_recipe] when it was submitted with the required
    fields filled, and does nothing to the store otherwise. *)
Lemma page_add_session (pg : page) :
  session (snd (App.page_add wd pg)) =
  if form_submit_button wd "Add Recipe"
     && (Str.truthy form_name && Str.truthy form_cuisine
         && Str.truthy form_ingredients && negb (form_prep_time =? 0)%Z
         && Str.truthy form_difficulty)
  then snd (add_recipe form_name form_cuisine
              (App.ingredient_list form_ingredients) form_prep_time
              form_difficulty form_rating (session pg))
  else session pg.
Proof.
  unfold App.page_add.
  repeat first [ rewrite ui_show_unfold
               | rewrite ui_bind_unfold, ui_ask_unfold; cbn beta iota zeta ].
  destruct (form_submit_button wd "Add Recipe"); [|reflexivity].
  cbn [andb].
  destruct (Str.truthy form_name && Str.truthy form_cuisine
            && Str.truthy form_ingredients && negb (form_prep_time =? 0)%Z
            && Str.truthy form_difficulty); cbn [negb]; [|reflexivity].
  rewrite ui_call_unfold. cbn [session shown].
  destruct (fst (add_recipe _ _ _ _ _ _ _)) as [[]|e]; reflexivity.
Qed.

Lemma truthy_nonempty (s : string) : Str.truthy s = true -> s <> "".
Proof. intros H ->. discriminate. Qed.

(** What a run of the form leaves in the collection. *)
Lemma page_add_collection (pg : page) :
  self (session (snd (App.page_add wd pg))) = self (session pg) \/
  exists name r,
    from_form name r /\
    self (session (snd (App.page_add wd pg)))
    = {| data_file := data_file (self (session pg));
         recipes := recipes (self (session pg)) ++ [(name, r)] |}.
Proof.
  rewrite page_add_session.
  destruct (form_submit_button wd "Add Recipe"); [|now left]. cbn [andb].
  destruct (Str.truthy form_name) eqn:Hn; [|now left].
  destruct (Str.truthy form_cuisine) eqn:Hc; [|now left].
  destruct (Str.truthy form_ingredients) eqn:Hi; [|now left].
  destruct (form_prep_time =? 0)%Z eqn:Hp; [now left|].
  destruct (Str.truthy form_difficulty) eqn:Hd; [|now left]. cbn [andb negb].
  destruct (add_recipe_collection form_name form_cuisine
              (App.ingredient_list form_ingredients) form_prep_time
              form_difficulty form_rating (session pg)) as [Hsame | [_ Hnew]].
  - now left.
  - right. eexists _, _. split; [|exact Hnew].
    unfold from_form. cbn [Cuisine Difficulty Prep_Time Ingredients Rating].
    repeat split; try (now apply truthy_nonempty).
    + now apply Z.eqb_neq.
    + apply ingredient_list_stripped_aux.
    + intros x. destruct (PrimFloat.eqb _ 0) eqn:E; [discriminate|].
      now intros [= <-].
Qed.

End Form.

(** Runs the script up to the next call of the store or the next
    branch. *)
Ltac step_page :=
  repeat first [ rewrite ui_show_unfold
               | rewrite ui_bind_unfold, ui_ask_unfold; cbn beta iota zeta ].

Section MainProps.
Variable float_repr : float -> string.

Lemma main_keeps (wd : widgets) (pg : page) :
  selectbox wd "Menu" <> "Add New Recipe" ->
  session (snd (App.main float_repr wd pg)) = session pg.
Proof.
  intros Hmenu. rewrite main_unfold. cbn zeta.
  destruct (String.eqb _ "Get Recommendations");
    [now rewrite keeps_page_recommendations|].
  destruct (String.eqb _ "Search Recipes"); [now rewrite keeps_page_search|].
  destruct (String.eqb _ "Filter Recipes"); [now rewrite keeps_page_filter|].
  destruct (String.eqb_spec (selectbox wd "Menu") "Add New Recipe");
    [contradiction|].
  destruct (String.eqb _ "View All Recipes"); [now rewrite keeps_page_all|].
  reflexivity.
Qed.

Lemma main_add (wd : widgets) (pg : page) :
  selectbox wd "Menu" = "Add New Recipe" ->
  App.main float_repr wd pg
  = App.page_add wd
      {| session := session pg; shown := shown pg ++ main_head |}.
Proof. intros Hmenu. now rewrite main_unfold, Hmenu. Qed.

Lemma main_filter (wd : widgets) (pg : page) :
  selectbox wd "Menu" = "Filter Recipes" ->
  App.main float_repr wd pg
  = App.page_filter float_repr wd
      {| session := session pg; shown := shown pg ++ main_head |}.
Proof. intros Hmenu. now rewrite main_unfold, Hmenu. Qed.

(** X20. Whatever the widgets return, a run of [main] leaves the
    collection as it was or appends one recipe to it, and a recipe it
    appends has a name, a cuisine and a difficulty that are not empty, a
    preparation time other than zero, ingredients that are stripped and
    not empty, and either no rating or a rating other than zero. *)
Theorem main_stores_form_recipes (wd : widgets) (pg : page) :
  recipes (self (session (snd (App.main float_repr wd pg))))
  = recipes (self (session pg)) \/
  exists name r,
    from_form name r /\
    recipes (self (session (snd (App.main float_repr wd pg))))
    = recipes (self (session pg)) ++ [(name, r)].
Proof.
  destruct (String.eqb_spec (selectbox wd "Menu") "Add New Recipe")
    as [Hadd|Hother].
  - rewrite (main_add wd pg Hadd).
    destruct (page_add_collection wd
                {| session := session pg; shown := shown pg ++ main_head |})
      as [-> | (name & r & Hform & ->)]; [now left|].
    right. now exists name, r.
  - left. now rewrite (main_keeps wd pg Hother).
Qed.

Lemma filter_recipes_unrated (w : world) (difficulty : option string)
    (max_time : option Z) (m : float) :
  PrimFloat.eqb m 0%float = false ->
  Exists (fun item => Rating (snd item) = None) (recipes (self w)) ->
  filter_recipes difficulty max_time (Some m) w = (Raise TypeError, w).
Proof.
  intros Hm Hex. run.
  rewrite (filter_loop_unrated difficulty max_time (Some m) _ [] m);
    [reflexivity | | exact Hex].
  unfold Spec.given_float. now rewrite Hm.
Qed.

(** X22. When a run of the form, its rating slider left at zero, has
    changed the collection, every later run of the page "Filter Recipes"
    with a minimum rating other than zero and "Apply Filters" clicked
    ends with [TypeError]. *)
Theorem form_then_filter_raises (wd1 wd2 : widgets) (pg : page) :
  selectbox wd1 "Menu" = "Add New Recipe" ->
  PrimFloat.eqb (slider_float wd1 "Rating (optional)") 0%float = true ->
  recipes (self (session (snd (App.main float_repr wd1 pg))))
  <> recipes (self (session pg)) ->
  selectbox wd2 "Menu" = "Filter Recipes" ->
  button wd2 "Apply Filters" None = true ->
  PrimFloat.eqb (slider_float wd2 "Minimum Rating") 0%float = false ->
  fst (App.main float_repr wd2 (snd (App.main float_repr wd1 pg)))
  = Raise TypeError.
Proof.
  intros Hadd Hzero Hchanged Hfilter Hclick Hmin.
  assert (Hunrated : Exists (fun item => Rating (snd item) = None)
                       (recipes (self (session
                                         (snd (App.main float_repr wd1 pg)))))).
  { revert Hchanged. rewrite (main_add wd1 pg Hadd), page_add_session.
    cbn [session].
    destruct (form_submit_button wd1 "Add Recipe" && _); [|congruence].
    rewrite Hzero.
    destruct (add_recipe_collection (text_input wd1 "Recipe Name*")
                (text_input wd1 "Cuisine*")
                (App.ingredient_list
                   (text_area wd1 "Ingredients (one per line)*"))
                (number_input wd1 "Prep Time (minutes)*")
                (selectbox wd1 "Difficulty*") None (session pg))
      as [-> | [_ ->]]; [congruence|].
    intros _. cbn [recipes]. apply Exists_app. right.
    now apply Exists_cons_hd. }
  rewrite (main_filter wd2 _ Hfilter). unfold App.page_filter. step_page.
  rewrite Hclick, Hmin, ui_call_unfold. cbn [session shown].
  now rewrite (filter_recipes_unrated _ _ _ _ Hmin Hunrated).
Qed.

End MainProps.

(** ** The slider of the maximum time *)

Section Slider.
Variable float_repr : float -> string.
Variables (wd : widgets) (a b : Z).

Lemma display_recipe_list_slider (names : list string) (pg : page) :
  App.display_recipe_list float_repr names (with_max_time wd a) pg
  = App.display_recipe_list float_repr names (with_max_time wd b) pg.
Proof. now apply display_recipe_list_buttons. Qed.

Lemma page_recommendations_slider (pg : page) :
  App.page_recommendations float_repr (with_max_time wd a) pg
  = App.page_recommendations float_repr (with_max_time wd b) pg.
Proof.
  unfold App.page_recommendations. step_page. cbn [text_input with_max_time].
  destruct (Str.truthy _); [|reflexivity].
  rewrite !ui_call_unfold.
  destruct (fst (get_cuisine_recommendations _ _)) as [[|name names]|e];
    try reflexivity.
  rewrite !ui_show_unfold. apply display_recipe_list_slider.
Qed.

Lemma page_search_slider (pg : page) :
  App.page_search float_repr (with_max_time wd a) pg
  = App.page_search float_repr (with_max_time wd b) pg.
Proof.
  unfold App.page_search. step_page. cbn [text_input with_max_time].
  destruct (Str.truthy _); [|reflexivity].
  rewrite !ui_call_unfold.
  destruct (fst (search_recipes _ _)) as [names|e]; [|reflexivity].
  apply display_recipe_list_slider.
Qed.

Lemma page_all_slider (pg : page) :
  App.page_all float_repr (with_max_time wd a) pg
  = App.page_all float_repr (with_max_time wd b) pg.
Proof.
  unfold App.page_all. step_page. rewrite !ui_call_unfold.
  destruct (fst (get_keys _)) as [names|e]; [|reflexivity].
  apply display_recipe_list_slider.
Qed.

Lemma page_add_slider (pg : page) :
  App.page_add (with_max_time wd a) pg = App.page_add (with_max_time wd b) pg.
Proof.
  unfold App.page_add. step_page.
  cbn [text_input text_area number_input selectbox slider_float
       form_submit_button with_max_time].
  destruct (form_submit_button wd "Add Recipe"); [|reflexivity].
  destruct (negb _); [reflexivity|].
  rewrite !ui_call_unfold.
  now destruct (fst (add_recipe _ _ _ _ _ _ _)) as [[]|e].
Qed.

End Slider.

Lemma filter_recipes_zero_time (w : world) (difficulty : option string)
    (min_rating : option float) :
  filter_recipes difficulty (Some 0) min_rating w
  = filter_recipes difficulty None min_rating w.
Proof. run. now rewrite filter_loop_zero_time. Qed.

(** X21. On every page, moving the slider of the maximum preparation
    time to 0 gives the run that leaving it at 120 gives: 0 does not mean
    "at most 0 minutes", it switches the constraint off. *)
Theorem main_max_time_zero (float_repr : float -> string) (wd : widgets)
    (pg : page) :
  App.main float_repr (with_max_time wd 0) pg
  = App.main float_repr (with_max_time wd 120) pg.
Proof.
  rewrite !main_unfold. cbn zeta. cbn [selectbox with_max_time].
  destruct (String.eqb _ "Get Recommendations");
    [apply page_recommendations_slider|].
  destruct (String.eqb _ "Search Recipes"); [apply page_search_slider|].
  destruct (String.eqb _ "Filter Recipes").
  - unfold App.page_filter. step_page.
    cbn [selectbox slider_int slider_float button with_max_time
         String.eqb Ascii.eqb Bool.eqb Z.eqb Pos.eqb].
    destruct (button wd "Apply Filters" None); [|reflexivity].
    rewrite !ui_call_unfold, filter_recipes_zero_time.
    destruct (fst (filter_recipes _ None _ _)) as [names|e]; [|reflexivity].
    apply display_recipe_list_slider.
  - destruct (String.eqb _ "Add New Recipe"); [apply page_add_slider|].
    destruct (String.eqb _ "View All Recipes"); [apply page_all_slider|].
    reflexivity.
Qed.

(** X19. A run of [main] on any page but "Add New Recipe" leaves the
    collection and the files as they were, also when it ends with an
    exception. *)
Theorem main_only_reads (float_repr : float -> string) (wd : widgets)
    (pg : page) :
  selectbox wd "Menu" <> "Add New Recipe" ->
  session (snd (App.main float_repr wd pg)) = session pg.
Proof. apply main_keeps. Qed.

Lemma main_only_reads_witness :
  selectbox filter_widgets "Menu" <> "Add New Recipe" /\
  session (snd (App.main repr_sample filter_widgets sample_page))
  = sample_world.
Proof.
  assert (H : selectbox filter_widgets "Menu" <> "Add New Recipe")
    by discriminate.
  split; [exact H|].
  exact (main_only_reads repr_sample filter_widgets sample_page H).
Defined.

Lemma display_recipe_details_not_rated_witness :
  Dict.get
    (recipes (self (snd (App.main repr_sample form_widgets sample_page)).(session)))
    "Toast"
  = Some {| Cuisine := "British"; Ingredients := ["Bread"; "Butter"];
            Prep_Time := 3; Difficulty := "Easy"; Rating := None |} /\
  exists more,
    only_shows (App.display_recipe_details repr_sample "Toast") idle
      (snd (App.main repr_sample form_widgets sample_page)) more /\
    List.last more (st_write "") = st_write "**Rating:** Not rated".
Proof.
  assert (H : Dict.get
                (recipes (self (snd (App.main repr_sample form_widgets
                                       sample_page)).(session)))
                "Toast"
              = Some {| Cuisine := "British"; Ingredients := ["Bread"; "Butter"];
                        Prep_Time := 3; Difficulty := "Easy"; Rating := None |})
    by (vm_compute; reflexivity).
  split; [exact H|].
  exact (display_recipe_details_not_rated repr_sample "Toast" _ idle
           (snd (App.main repr_sample form_widgets sample_page)) H
           (or_introl eq_refl)).
Defined.

Lemma form_then_filter_raises_witness :
  fst (App.main repr_sample filter_widgets
         (snd (App.main repr_sample form_widgets sample_page)))
  = Raise TypeError.
Proof.
  apply (form_then_filter_raises repr_sample form_widgets filter_widgets
           sample_page); try reflexivity.
  intros H. apply (f_equal (@length _)) in H. vm_compute in H. discriminate.
Defined.

Lemma main_view_all_witness :
  selectbox view_all_widgets "Menu" = "View All Recipes" /\
  exists more,
    only_shows (App.main repr_sample) view_all_widgets sample_page more /\
    buttons more
    = [button_of "Spaghetti Carbonara"; button_of "Chicken Tikka Masala";
       button_of "Avocado Toast"].
Proof.
  split; [reflexivity|].
  exact (main_view_all repr_sample view_all_widgets sample_page eq_refl).
Defined.
